(** * h5::array_interface — the array view marshaller

    A shallow embedding of [c++/h5/array_interface.cpp]: the stride
    decomposition [get_L_tot_and_strides_h5] on machine integers, and the
    dataspace builder and the four transfer entry points as programs over
    the calls they make into the HDF5 library. *)

From Stdlib Require Import ZArith Lia String DecimalString.
From stdpp Require Import base tactics option list.

Local Open Scope Z_scope.

(** ** Machine integers

    [long] is the 64-bit signed integer of an LP64 platform and [hsize_t] the
    64-bit unsigned integer of HDF5.  Values are kept as [Z]; a conversion
    between the two types is written out as the wrap-around it performs. *)

Definition two64 : Z := 2 ^ 64.
Definition two63 : Z := 2 ^ 63.

(** Conversion to [hsize_t] (and to [unsigned long long]): reduction modulo 2^64. *)
Definition to_hsize (z : Z) : Z := z mod two64.

(** Conversion to [long]: the two's-complement reading of the low 64 bits. *)
Definition to_long (z : Z) : Z := (z + two63) mod two64 - two63.

Definition is_long (z : Z) : Prop := - two63 <= z < two63.
Definition is_hsize (z : Z) : Prop := 0 <= z < two64.

(** A [long] that is not negative. *)
Definition small (x : Z) : Prop := 0 <= x < two63.

(** [using v_t = std::vector<hsize_t>]: the element type is the one
    [H5Sget_simple_extent_dims] and [H5Screate_simple] take. *)
Abbreviation v_t := (list Z).

(** [std::gcd(long m, hsize_t n)]: the greatest common divisor of [|m|] and
    [n], in the common type [unsigned long long]. *)
Definition std_gcd (m n : Z) : Z := Z.gcd (Z.abs m) n.

(** ** Undefined behaviour

    The two ways in which the arithmetic of this file can leave the defined
    part of C++: an integer division by zero, and a read or write past the
    end of a vector or of the caller's stride array. *)

Inductive undefined : Type :=
| DivisionByZero
| OutOfBounds.

Inductive cxx (A : Type) : Type :=
| Done (a : A)
| Undef (u : undefined).
Arguments Done {A} a.
Arguments Undef {A} u.

#[global] Instance cxx_ret : MRet cxx := fun A a => Done a.

#[global] Instance cxx_bind : MBind cxx := fun A B f m =>
  match m with
  | Done a => f a
  | Undef u => Undef u
  end.

(** [v[i]] as an rvalue. *)
Definition at_ (v : list Z) (i : nat) : cxx Z :=
  match v !! i with
  | Some x => Done x
  | None => Undef OutOfBounds
  end.

(** [v[i] = x]. *)
Definition set_at (v : v_t) (i : nat) (x : Z) : cxx v_t :=
  if decide (i < length v)%nat then Done (<[i := x]> v) else Undef OutOfBounds.

(** ** Stride decomposition: [get_L_tot_and_strides_h5] *)

Module decomposition.

(** [for (int u = 0; u < rank; ++u) strides_h5[u] = stri[u];]
    with [n] iterations left, the next one at index [u]. *)
Fixpoint copy_loop (stri : list Z) (strides_h5 : v_t) (u n : nat) : cxx v_t :=
  match n with
  | O => Done strides_h5
  | S n' =>
      x ← at_ stri u;
      s ← set_at strides_h5 u (to_hsize x);
      copy_loop stri s (S u) n'
  end.

(** [for (int v = u - 1; v >= 0; --v) { L = std::gcd(L, strides_h5[v]); }]
    entered with [n = u]; the result of [std::gcd] is stored in a [long]. *)
Fixpoint gcd_loop (strides_h5 : v_t) (L : Z) (n : nat) : cxx Z :=
  match n with
  | O => Done L
  | S v =>
      x ← at_ strides_h5 v;
      gcd_loop strides_h5 (to_long (std_gcd L x)) v
  end.

(** [for (int v = u; v >= 0; --v) { strides_h5[v] /= L; }]
    entered with [n = u + 1].  The left operand is an [hsize_t], so [L] is
    converted to unsigned and the division is the unsigned one. *)
Fixpoint div_loop (strides_h5 : v_t) (L : Z) (n : nat) : cxx v_t :=
  match n with
  | O => Done strides_h5
  | S v =>
      x ← at_ strides_h5 v;
      if to_hsize L =? 0 then Undef DivisionByZero
      else
        s ← set_at strides_h5 v (x / to_hsize L);
        div_loop s L v
  end.

(** [for (int u = rank - 2; u >= 0; --u) { ... }] entered with
    [n = rank - 1]. *)
Fixpoint outer_loop (Ltot strides_h5 : v_t) (n : nat) : cxx (v_t * v_t) :=
  match n with
  | O => Done (Ltot, strides_h5)
  | S u =>
      x ← at_ strides_h5 u;
      L ← gcd_loop strides_h5 (to_long x) u;
      s ← div_loop strides_h5 L (S u);
      Lt ← set_at Ltot (S u) (to_hsize L);
      outer_loop Lt s u
  end.

(** [stri] points to [long] values; [rank], an [int] in the source, counts
    them and is kept as a natural number. *)
Definition get_L_tot_and_strides_h5 (stri : list Z) (rank : nat) (total_size : Z)
  : cxx (v_t * v_t) :=
  if decide (rank = 0%nat) then Done ([], [])
  else if total_size =? 0 then Done (replicate rank 0, replicate rank 1)
  else
    strides_h5 ← copy_loop stri (replicate rank 0) 0 rank;
    Ltot ← set_at (replicate rank 0) 0 (to_hsize total_size);
    outer_loop Ltot strides_h5 (rank - 1).

End decomposition.

Import decomposition.

(** ** The decomposition as the specification words it

    Over the integers: [L] is the greatest common divisor of
    [strides_h5[u], ..., strides_h5[0]], every [strides_h5[v]] with [v <= u]
    is divided by [L], and [L_tot[u+1] = L].  A division by [L = 0] has no
    value. *)

Module reference.

Definition gcd_of (l : list Z) : Z := foldr Z.gcd 0 l.

Definition divide_below (u : nat) (L : Z) (strides_h5 : list Z) : list Z :=
  ((fun x => x / L) <$> take (S u) strides_h5) ++ drop (S u) strides_h5.

(** Dimensions [u = n - 1] down to [0]. *)
Fixpoint reduce (L_tot strides_h5 : list Z) (n : nat) : option (list Z * list Z) :=
  match n with
  | O => Some (L_tot, strides_h5)
  | S u =>
      let L := gcd_of (take (S u) strides_h5) in
      if L =? 0 then None
      else reduce (<[S u := L]> L_tot) (divide_below u L strides_h5) u
  end.

Definition L_tot_and_strides_h5 (stri : list Z) (total_size : Z)
  : option (list Z * list Z) :=
  let r := length stri in
  if decide (r = 0%nat) then Some ([], [])
  else if total_size =? 0 then Some (replicate r 0, replicate r 1)
  else reduce (<[0%nat := total_size]> (replicate r 0)) stri (r - 1).

(** The integers of the reference as the function returns them: stored in
    two [v_t], with the division that has no value as undefined behaviour. *)
Definition stored (r : option (list Z * list Z)) : cxx (v_t * v_t) :=
  match r with
  | Some (L_tot, strides_h5) => Done (to_hsize <$> L_tot, to_hsize <$> strides_h5)
  | None => Undef DivisionByZero
  end.

End reference.

(** ** Addressing

    Modelled from the spec: the composite addressing that the decomposition
    is made for, which the HDF5 library performs and no code of the
    repository.  The element of index [idx] of a hyperslab
    [(offset, stride)] sits at the coordinates [offset[d] + idx[d] * stride[d]]
    of its dataspace, and a dataspace of extents [dims] is laid out in
    row-major order. *)

Module addressing.

Definition prod (l : list Z) : Z := foldr Z.mul 1 l.

Fixpoint linear_index (dims coords : list Z) : Z :=
  match dims, coords with
  | _ :: dims', c :: coords' => c * prod dims' + linear_index dims' coords'
  | _, _ => 0
  end.

Definition hyperslab_coords (offset stride idx : list Z) : list Z :=
  zip_with Z.add offset (zip_with Z.mul idx stride).

(** Addressing with a raw stride vector: [base + Σ idx[d] * stri[d]]. *)
Definition strided_offset (base : Z) (stri idx : list Z) : Z :=
  base + foldr Z.add 0 (zip_with Z.mul idx stri).

(** The index vectors of a selection of [count[d]] elements per dimension. *)
Definition in_count (count idx : list Z) : Prop :=
  Forall2 (fun c i => 0 <= i < c) count idx.

Definition visited_h5 (L_tot strides_h5 offset count : list Z) (o : Z) : Prop :=
  exists idx, in_count count idx /\
    linear_index L_tot (hyperslab_coords offset strides_h5 idx) = o.

Definition visited_stri (base : Z) (stri count : list Z) (o : Z) : Prop :=
  exists idx, in_count count idx /\ strided_offset base stri idx = o.

End addressing.

(** ** The collaborators of the marshaller

    Handles ([hid_t] and the wrappers [group], [object], [dataset],
    [dataspace], [datatype], [attribute], [proplist] around it), error codes
    ([herr_t], [htri_t]), point counts and buffer addresses are integers. *)

Abbreviation hid_t := Z.

Definition H5P_DEFAULT : hid_t := 0.
Definition H5S_ALL : hid_t := 0.

Inductive H5S_class_t : Type := H5S_SCALAR.
Inductive H5S_seloper_t : Type := H5S_SELECT_SET.
Inductive H5P_class : Type := H5P_DATASET_CREATE.

(** The calls that reach the storage, or the error stream.  A [nullptr]
    argument is [None]. *)
Inductive h5call : Type :=
| H5Screate (type : H5S_class_t)
| H5Screate_simple (rank : Z) (dims : v_t) (maxdims : option v_t)
| H5Sselect_hyperslab (space : hid_t) (op : H5S_seloper_t)
    (start stride count : v_t) (block : option v_t)
| H5Sget_simple_extent_npoints (space : hid_t)
| H5Sget_simple_extent_ndims (space : hid_t)
| H5Pcreate (cls : H5P_class)
| H5Pset_chunk (plist : hid_t) (ndims : Z) (dim : v_t)
| H5Pset_deflate (plist : hid_t) (level : Z)
| H5Dcreate2 (loc : hid_t) (name : string) (type space lcpl dcpl dapl : hid_t)
| H5Dwrite (dset mem_type mem_space file_space xfer : hid_t) (buf : Z)
| H5Dread (dset mem_type mem_space file_space xfer : hid_t) (buf : Z)
| H5Dget_space (dset : hid_t)
| H5LTfind_attribute (loc : hid_t) (name : string)
| H5Acreate2 (loc : hid_t) (name : string) (type space acpl aapl : hid_t)
| H5Awrite (attr type : hid_t) (buf : Z)
| H5Aopen (obj : hid_t) (name : string) (aapl : hid_t)
| H5Aget_space (attr : hid_t)
| H5Aget_type (attr : hid_t)
| H5Aread (attr type : hid_t) (buf : Z)
| group_unlink (g : hid_t) (name : string)
| group_open_dataset (g : hid_t) (name : string)
| h5_write_attribute (obj : hid_t) (name value : string)
| cerr (msg : string).

(** Modelled from the spec: the helpers that [array_interface.cpp] uses and
    that are declared outside it — the validity test of a handle wrapper,
    the name of a group, and the introspection of datatypes (type class,
    type equality, type name).  They are taken as given. *)
Class Collaborators : Type := {
  is_valid : hid_t -> bool;
  group_name : hid_t -> string;
  H5Tget_class : hid_t -> Z;
  H5Tequal : hid_t -> hid_t -> Z;
  hdf5_type_equal : hid_t -> hid_t -> bool;
  get_name_of_h5_type : hid_t -> string;
}.

(** ** Programs over the library

    A function of the marshaller either returns, throws a
    [std::runtime_error], or calls the library and goes on with its answer. *)

Inductive prog (A : Type) : Type :=
| Ret (a : A)
| Throw (msg : string)
| Call (c : h5call) (k : Z -> prog A).
Arguments Ret {A} a.
Arguments Throw {A} msg.
Arguments Call {A} c k.

Fixpoint prog_bind {A B : Type} (f : A -> prog B) (p : prog A) : prog B :=
  match p with
  | Ret a => f a
  | Throw msg => Throw msg
  | Call c k => Call c (fun r => prog_bind f (k r))
  end.

#[global] Instance prog_ret : MRet prog := fun A a => Ret a.
#[global] Instance prog_mbind : MBind prog := fun A B f p => prog_bind f p.

Definition call (c : h5call) : prog Z := Call c Ret.

(** A call made for its effect only. *)
Definition call_ (c : h5call) : prog unit := Call c (fun _ => Ret tt).

Definition event : Type := h5call * Z.

Inductive outcome (A : Type) : Type :=
| Returned (a : A)
| Thrown (msg : string).
Arguments Returned {A} a.
Arguments Thrown {A} msg.

(** [runs p tr o]: [p] makes the calls of [tr], gets the answers of [tr], and
    ends in [o].  The library may answer anything. *)
Inductive runs {A : Type} : prog A -> list event -> outcome A -> Prop :=
| runs_Ret a : runs (Ret a) [] (Returned a)
| runs_Throw msg : runs (Throw msg) [] (Thrown msg)
| runs_Call c k r tr o : runs (k r) tr o -> runs (Call c k) ((c, r) :: tr) o.

(** A library as a function of its state. *)
Definition handler (W : Type) : Type := h5call -> W -> Z * W.

Fixpoint exec {A W : Type} (h : handler W) (p : prog A) (w : W)
  : list event * outcome A * W :=
  match p with
  | Ret a => ([], Returned a, w)
  | Throw msg => ([], Thrown msg, w)
  | Call c k =>
      let '(r, w1) := h c w in
      let '(tr, o, w2) := exec h (k r) w1 in
      ((c, r) :: tr, o, w2)
  end.

Definition calls (P : h5call -> bool) (tr : list event) : bool :=
  existsb (fun e => P e.1) tr.

Definition is_H5Dwrite (c : h5call) : bool :=
  match c with H5Dwrite _ _ _ _ _ _ => true | _ => false end.

Definition is_H5Dread (c : h5call) : bool :=
  match c with H5Dread _ _ _ _ _ _ => true | _ => false end.

Definition is_H5Sselect_hyperslab (c : h5call) : bool :=
  match c with H5Sselect_hyperslab _ _ _ _ _ _ => true | _ => false end.

(** The calls that make a dataspace or select in it. *)
Definition builds_dataspace (c : h5call) : bool :=
  match c with
  | H5Screate _ | H5Screate_simple _ _ _ | H5Sselect_hyperslab _ _ _ _ _ _ => true
  | _ => false
  end.

(** The calls that create or fill an attribute. *)
Definition writes_attribute (c : h5call) : bool :=
  match c with
  | h5_write_attribute _ _ _ | H5Acreate2 _ _ _ _ _ _ | H5Awrite _ _ _ => true
  | _ => false
  end.

(** ** The data model *)

Record hyperslab : Type := {
  offset : v_t;
  stride : v_t;
  count : v_t;
  block : v_t;
}.

Record h5_array_view : Type := {
  ty : hid_t;
  start : Z;
  L_tot : v_t;
  slab : hyperslab;
  is_complex : bool;
}.

(** The datatype field is [ty] in the source as well. *)
Record h5_lengths_type : Type := {
  lengths : v_t;
  lt_ty : hid_t;
  has_complex_attribute : bool;
}.

(** Modelled from the spec: the [rank()] accessors of the three structures,
    declared in [array_interface.hpp].  All the vectors of a hyperslab have
    the length of the rank; the rank is read off [count], and off [lengths]
    for the stored extents. *)
Definition hyperslab_rank (s : hyperslab) : Z := Z.of_nat (length (count s)).
Definition view_rank (v : h5_array_view) : Z := hyperslab_rank (slab v).
Definition lt_rank (lt : h5_lengths_type) : Z := Z.of_nat (length (lengths lt)).

(** Modelled from the spec: the number of points that a hyperslab selects,
    [count[d]] blocks of [block[d]] points in each dimension; a block is one
    point where no block vector is given. *)
Definition selected_points (s : hyperslab) : Z :=
  addressing.prod (count s) * addressing.prod (block s).

(** The line feed that ends a line of the error stream. *)
Definition newline : string :=
  String (Ascii.Ascii false true false true false false false false) EmptyString.

(** [std::to_string] on an [int]. *)
Definition to_string (z : Z) : string := NilZero.string_of_int (Z.to_int z).

(** [v.data()] of a vector that may be empty, where the source passes
    [nullptr] for the empty one. *)
Definition data_or_null (v : v_t) : option v_t :=
  match v with
  | [] => None
  | _ :: _ => Some v
  end.

(** ** The marshaller: [array_interface.cpp] *)

Module array_interface.
Section with_collaborators.
Context `{Collaborators}.

Local Open Scope string_scope.
Local Open Scope Z_scope.
Local Notation "a +++ b" := (String.append a b)
  (at level 60, right associativity).

Definition make_mem_dspace (v : h5_array_view) : prog hid_t :=
  if view_rank v =? 0 then call (H5Screate H5S_SCALAR)
  else
    ds ← call (H5Screate_simple (hyperslab_rank (slab v)) (L_tot v) None);
    if negb (is_valid ds) then Throw "Cannot create the dataset"
    else
      err ← call (H5Sselect_hyperslab ds H5S_SELECT_SET
                    (offset (slab v)) (stride (slab v)) (count (slab v))
                    (data_or_null (block (slab v))));
      if err <? 0 then Throw "Cannot set hyperslab"
      else Ret ds.

Definition write (g : hid_t) (name : string) (v : h5_array_view) (compress : bool)
  : prog unit :=
  _ ← call_ (group_unlink g name);
  cparms ← (if compress && negb (view_rank v =? 0) then
              let n_dims := view_rank v in
              (* chunk_dims[i] = max(count[i], 1) for i < rank *)
              let chunk_dims := (fun c => Z.max c 1) <$> count (slab v) in
              cparms ← call (H5Pcreate H5P_DATASET_CREATE);
              _ ← call_ (H5Pset_chunk cparms n_dims chunk_dims);
              _ ← call_ (H5Pset_deflate cparms 1);
              Ret cparms
            else Ret H5P_DEFAULT);
  file_dspace ← call (H5Screate_simple (hyperslab_rank (slab v)) (count (slab v)) None);
  ds ← call (H5Dcreate2 g name (ty v) file_dspace H5P_DEFAULT cparms H5P_DEFAULT);
  if negb (is_valid ds) then
    Throw ("Cannot create the dataset " +++ name +++ " in the group " +++ group_name g)
  else
    mem_dspace ← make_mem_dspace v;
    npoints ← call (H5Sget_simple_extent_npoints mem_dspace);
    _ ← (if 0 <? npoints then
           err ← call (H5Dwrite ds (ty v) mem_dspace H5S_ALL H5P_DEFAULT (start v));
           if err <? 0 then
             Throw ("Error writing the scalar dataset " +++ name +++ " in the group"
                    +++ group_name g)
           else Ret tt
         else Ret tt);
    if is_complex v then call_ (h5_write_attribute ds "__complex__" "1")
    else Ret tt.

Definition write_attribute (obj : hid_t) (name : string) (v : h5_array_view)
  : prog unit :=
  found ← call (H5LTfind_attribute obj name);
  if negb (found =? 0) then
    Throw ("The attribute " +++ name +++ " is already present. Can not overwrite")
  else
    mem_dspace ← make_mem_dspace v;
    attr ← call (H5Acreate2 obj name (ty v) mem_dspace H5P_DEFAULT H5P_DEFAULT);
    if negb (is_valid attr) then Throw ("Cannot create the attribute " +++ name)
    else
      err ← call (H5Awrite attr (ty v) (start v));
      if err <? 0 then Throw ("Cannot write the attribute " +++ name)
      else Ret tt.

Definition read (g : hid_t) (name : string) (v : h5_array_view) (lt : h5_lengths_type)
  : prog unit :=
  ds ← call (group_open_dataset g name);
  file_dspace ← call (H5Dget_space ds);
  if negb (H5Tget_class (ty v) =? H5Tget_class (lt_ty lt)) then
    Throw ("Incompatible types in h5_read. Expecting a " +++ get_name_of_h5_type (ty v)
           +++ " while the array stored in the hdf5 file has type "
           +++ get_name_of_h5_type (lt_ty lt))
  else
    _ ← (if negb (hdf5_type_equal (ty v) (lt_ty lt)) then
           call_ (cerr ("WARNING: Mismatching types in h5_read. Expecting a "
                        +++ get_name_of_h5_type (ty v)
                        +++ " while the array stored in the hdf5 file has type "
                        +++ get_name_of_h5_type (lt_ty lt) +++ newline))
         else Ret tt);
    if negb (lt_rank lt =? view_rank v) then
      Throw ("h5 read. Rank mismatch : expecting in file a rank " +++ to_string (view_rank v)
             +++ " while the array stored in the hdf5 file has rank "
             +++ to_string (lt_rank lt))
    else if negb (bool_decide (lengths lt = count (slab v))) then
      Throw "h5 read. Lengths mismatch"
    else
      mem_dspace ← make_mem_dspace v;
      npoints ← call (H5Sget_simple_extent_npoints file_dspace);
      if 0 <? npoints then
        err ← call (H5Dread ds (ty v) mem_dspace file_dspace H5P_DEFAULT (start v));
        if err <? 0 then
          Throw ("Error reading the scalar dataset " +++ name +++ " in the group "
                 +++ group_name g)
        else Ret tt
      else Ret tt.

Definition read_attribute (obj : hid_t) (name : string) (v : h5_array_view)
  : prog unit :=
  attr ← call (H5Aopen obj name H5P_DEFAULT);
  if negb (is_valid attr) then Throw ("Cannot open the attribute " +++ name)
  else
    space ← call (H5Aget_space attr);
    rank ← call (H5Sget_simple_extent_ndims space);
    if negb (rank =? 0) then Throw "Reading a scalar attribute and got rank !=0"
    else
      stored_ty ← call (H5Aget_type attr);
      let eq := H5Tequal stored_ty (ty v) in
      if eq <? 0 then Throw "Type comparison failure in reading attribute"
      else if eq =? 0 then Throw "Type mismatch in reading attribute"
      else
        err ← call (H5Aread attr (ty v) (start v));
        if err <? 0 then Throw ("Cannot read the attribute " +++ name)
        else Ret tt.

End with_collaborators.
End array_interface.

Import array_interface.

(** ** A reference library

    Modelled from the spec: the storage collaborator (the HDF5 library,
    which is not part of the repository), as far as the marshaller looks at
    it — dataspaces with their extents, datasets under a group and a name,
    attributes under an object and a name.  It serves to run the programs
    above on concrete storage. *)

Module H5Model.

Inductive space : Type :=
| Scalar
| Simple (dims : v_t).

Inductive value : Type :=
| Unwritten
| Buffer (addr : Z)
| Text (s : string).

Record attr : Type := {
  attr_obj : hid_t;
  attr_name : string;
  attr_ty : hid_t;
  attr_val : value;
}.

Record dset : Type := {
  dset_group : hid_t;
  dset_name : string;
  dset_id : hid_t;
  dset_space : space;
}.

Record storage : Type := {
  fresh : hid_t;                       (* the next handle *)
  spaces : list (hid_t * space);       (* open dataspaces *)
  dsets : list dset;                   (* linked datasets *)
  attrs : list attr;                   (* attributes *)
  opened : list (hid_t * (hid_t * string));  (* open attribute handles *)
}.

Definition empty : storage :=
  {| fresh := 1; spaces := []; dsets := []; attrs := []; opened := [] |}.

Definition npoints (s : space) : Z :=
  match s with
  | Scalar => 1
  | Simple dims => addressing.prod dims
  end.

Definition ndims (s : space) : Z :=
  match s with
  | Scalar => 0
  | Simple dims => Z.of_nat (length dims)
  end.

Definition space_of (w : storage) (id : hid_t) : option space :=
  snd <$> List.find (fun p => p.1 =? id) (spaces w).

Definition is_attr (obj : hid_t) (name : string) (a : attr) : bool :=
  (attr_obj a =? obj) && String.eqb (attr_name a) name.

Definition find_attr (w : storage) (obj : hid_t) (name : string) : option attr :=
  List.find (is_attr obj name) (attrs w).

Definition is_dset (g : hid_t) (name : string) (d : dset) : bool :=
  (dset_group d =? g) && String.eqb (dset_name d) name.

Definition find_dset (w : storage) (g : hid_t) (name : string) : option dset :=
  List.find (is_dset g name) (dsets w).

Definition new_space (w : storage) (s : space) : Z * storage :=
  (fresh w,
   {| fresh := fresh w + 1; spaces := (fresh w, s) :: spaces w;
      dsets := dsets w; attrs := attrs w; opened := opened w |}).

Definition new_handle (w : storage) : Z * storage :=
  (fresh w,
   {| fresh := fresh w + 1; spaces := spaces w;
      dsets := dsets w; attrs := attrs w; opened := opened w |}).

Definition put_attr (w : storage) (a : attr) : storage :=
  {| fresh := fresh w; spaces := spaces w; dsets := dsets w;
     attrs := a :: List.filter (fun b => negb (is_attr (attr_obj a) (attr_name a) b)) (attrs w);
     opened := opened w |}.

Definition lib : handler storage := fun c w =>
  match c with
  | H5Screate H5S_SCALAR => new_space w Scalar
  | H5Screate_simple rank dims _ =>
      (* rank 0 gives a scalar dataspace *)
      if rank =? 0 then new_space w Scalar
      else if (0 <? rank) && (rank =? Z.of_nat (length dims)) then new_space w (Simple dims)
      else (-1, w)
  | H5Sselect_hyperslab id _ start stride count _ =>
      match space_of w id with
      | Some (Simple dims) =>
          if (length start =? length dims)%nat && (length stride =? length dims)%nat
             && (length count =? length dims)%nat
          then (0, w) else (-1, w)
      | _ => (-1, w)
      end
  | H5Sget_simple_extent_npoints id =>
      (match space_of w id with Some s => npoints s | None => -1 end, w)
  | H5Sget_simple_extent_ndims id =>
      (match space_of w id with Some s => ndims s | None => -1 end, w)
  | H5Pcreate _ => new_handle w
  | H5Pset_chunk _ _ _ | H5Pset_deflate _ _ => (0, w)
  | H5Dcreate2 g name _ sid _ _ _ =>
      match find_dset w g name, space_of w sid with
      | None, Some s =>
          (fresh w,
           {| fresh := fresh w + 1; spaces := spaces w;
              dsets := {| dset_group := g; dset_name := name;
                          dset_id := fresh w; dset_space := s |} :: dsets w;
              attrs := attrs w; opened := opened w |})
      | _, _ => (-1, w)
      end
  | H5Dwrite _ _ _ _ _ _ | H5Dread _ _ _ _ _ _ => (0, w)
  | H5Dget_space id =>
      match List.find (fun d => dset_id d =? id) (dsets w) with
      | Some d => new_space w (dset_space d)
      | None => (-1, w)
      end
  | H5LTfind_attribute obj name =>
      (match find_attr w obj name with Some _ => 1 | None => 0 end, w)
  | H5Acreate2 obj name t _ _ _ =>
      match find_attr w obj name with
      | Some _ => (-1, w)
      | None =>
          let w' := put_attr w {| attr_obj := obj; attr_name := name;
                                  attr_ty := t; attr_val := Unwritten |} in
          (fresh w,
           {| fresh := fresh w + 1; spaces := spaces w'; dsets := dsets w';
              attrs := attrs w'; opened := (fresh w, (obj, name)) :: opened w' |})
      end
  | H5Awrite id t buf =>
      match snd <$> List.find (fun p => p.1 =? id) (opened w) with
      | Some (obj, name) =>
          (0, put_attr w {| attr_obj := obj; attr_name := name;
                            attr_ty := t; attr_val := Buffer buf |})
      | None => (-1, w)
      end
  | H5Aopen obj name _ =>
      match find_attr w obj name with
      | Some _ =>
          (fresh w,
           {| fresh := fresh w + 1; spaces := spaces w; dsets := dsets w;
              attrs := attrs w; opened := (fresh w, (obj, name)) :: opened w |})
      | None => (-1, w)
      end
  | H5Aget_space id => new_space w Scalar
  | H5Aget_type id =>
      (match snd <$> List.find (fun p => p.1 =? id) (opened w) with
       | Some (obj, name) =>
           match find_attr w obj name with Some a => attr_ty a | None => -1 end
       | None => -1
       end, w)
  | H5Aread id _ _ =>
      (match List.find (fun p => p.1 =? id) (opened w) with Some _ => 0 | None => -1 end, w)
  | group_unlink g name =>
      (0,
       {| fresh := fresh w; spaces := spaces w;
          dsets := List.filter (fun d => negb (is_dset g name d)) (dsets w);
          attrs := attrs w; opened := opened w |})
  | group_open_dataset g name =>
      (match find_dset w g name with Some d => dset_id d | None => -1 end, w)
  | h5_write_attribute obj name s =>
      (0, put_attr w {| attr_obj := obj; attr_name := name;
                        attr_ty := 0; attr_val := Text s |})
  | cerr _ => (0, w)
  end.

(** Datatypes: the hundreds digit of a type handle is its class. *)
Definition int32 : hid_t := 100.
Definition int64 : hid_t := 101.
Definition float64 : hid_t := 200.

#[export] Instance collaborators : Collaborators := {
  is_valid id := 0 <? id;
  group_name g := "/"%string;
  H5Tget_class t := t / 100;
  H5Tequal a b := if a =? b then 1 else 0;
  hdf5_type_equal a b := a =? b;
  get_name_of_h5_type t := to_string t;
}.

End H5Model.

(** Views and stored extents to run the marshaller on. *)
Module samples.

Definition scalar_view : h5_array_view :=
  {| ty := H5Model.int32; start := 4096; L_tot := [];
     slab := {| offset := []; stride := []; count := []; block := [] |};
     is_complex := false |}.

Definition vector_view : h5_array_view :=
  {| ty := H5Model.int32; start := 8192; L_tot := [3];
     slab := {| offset := [0]; stride := [1]; count := [3]; block := [] |};
     is_complex := true |}.

Definition empty_view : h5_array_view :=
  {| ty := H5Model.int32; start := 8192; L_tot := [0];
     slab := {| offset := [0]; stride := [1]; count := [0]; block := [] |};
     is_complex := false |}.

(** A slice of no element in an array of four. *)
Definition slice_view : h5_array_view :=
  {| ty := H5Model.int32; start := 8192; L_tot := [4];
     slab := {| offset := [0]; stride := [1]; count := [0]; block := [] |};
     is_complex := false |}.

Definition stored_vector (t : hid_t) : h5_lengths_type :=
  {| lengths := [3]; lt_ty := t; has_complex_attribute := true |}.

Definition stored_matrix : h5_lengths_type :=
  {| lengths := [3; 3]; lt_ty := H5Model.int32; has_complex_attribute := false |}.

(** The storage after an attribute [a] has been written on the object 7. *)
Definition with_attribute : H5Model.storage :=
  (exec H5Model.lib
     (write_attribute (H := H5Model.collaborators) 7 "a" scalar_view)
     H5Model.empty).2.

End samples.

(** ** Array layouts

    The stride vector of a contiguous row-major array of a given shape: the
    stride of a dimension is the number of elements of the dimensions
    inside it. *)

Module layout.

Fixpoint row_major_strides (shape : list Z) : list Z :=
  match shape with
  | [] => []
  | _ :: inner => addressing.prod inner :: row_major_strides inner
  end.

End layout.

(** ** More classes of calls *)

(** The calls that create, fill or remove something in the file. *)
Definition changes_file (c : h5call) : bool :=
  match c with
  | group_unlink _ _ | H5Dcreate2 _ _ _ _ _ _ _ | H5Dwrite _ _ _ _ _ _
  | H5Acreate2 _ _ _ _ _ _ | H5Awrite _ _ _ | h5_write_attribute _ _ _ => true
  | _ => false
  end.

(** The calls on a dataset creation property list. *)
Definition sets_properties (c : h5call) : bool :=
  match c with
  | H5Pcreate _ | H5Pset_chunk _ _ _ | H5Pset_deflate _ _ => true
  | _ => false
  end.

Definition is_H5Aread (c : h5call) : bool :=
  match c with H5Aread _ _ _ => true | _ => false end.

(** ** The metadata probe: [get_h5_lengths_type]

    The probe makes two calls that the other functions do not make:
    [H5Dget_type], and [H5Sget_simple_extent_dims], which answers by writing
    into the buffer it is given.  Its programs have these two calls beside
    the ones above, and two more ways to end: the [std::length_error] of
    the constructor [v_t dims_out(rank)] for a negative [rank], and a write
    past the end of the buffer.  A failing allocation is left out, and
    [group::open_dataset], defined outside this file, is a call that answers
    a handle, as in [read]. *)

Module probe.

Inductive prog (A : Type) : Type :=
| Ret (a : A)
| LengthError
| Undefined (u : undefined)
| Call (c : h5call) (k : Z -> prog A)
| H5Dget_type (dset : hid_t) (k : Z -> prog A)
| H5Sget_simple_extent_dims (space : hid_t) (k : v_t -> prog A).
Arguments Ret {A} a.
Arguments LengthError {A}.
Arguments Undefined {A} u.
Arguments Call {A} c k.
Arguments H5Dget_type {A} dset k.
Arguments H5Sget_simple_extent_dims {A} space k.

(** The calls with their answers; for [H5Sget_simple_extent_dims] the
    answer is the extents that the library writes. *)
Inductive event : Type :=
| Called (c : h5call) (r : Z)
| Got_type (dset : hid_t) (r : Z)
| Got_dims (space : hid_t) (written : v_t).

Inductive outcome (A : Type) : Type :=
| Returned (a : A)
| Thrown_length_error
| Undefined_behaviour (u : undefined).
Arguments Returned {A} a.
Arguments Thrown_length_error {A}.
Arguments Undefined_behaviour {A} u.

Inductive runs {A : Type} : prog A -> list event -> outcome A -> Prop :=
| runs_Ret a : runs (Ret a) [] (Returned a)
| runs_LengthError : runs LengthError [] Thrown_length_error
| runs_Undefined u : runs (Undefined u) [] (Undefined_behaviour u)
| runs_Call c k r tr o :
    runs (k r) tr o -> runs (Call c k) (Called c r :: tr) o
| runs_H5Dget_type dset k r tr o :
    runs (k r) tr o -> runs (H5Dget_type dset k) (Got_type dset r :: tr) o
| runs_H5Sget_simple_extent_dims space k written tr o :
    runs (k written) tr o ->
    runs (H5Sget_simple_extent_dims space k) (Got_dims space written :: tr) o.

(** The buffer [dims_out.data()] after the library has written [written]
    from its start. *)
Definition written_into (dims_out written : v_t) : cxx v_t :=
  if decide (length written <= length dims_out)%nat
  then Done (written ++ drop (length written) dims_out)
  else Undef OutOfBounds.

Definition get_h5_lengths_type (g : hid_t) (name : string) : prog h5_lengths_type :=
  Call (group_open_dataset g name) (fun ds =>
  Call (H5LTfind_attribute ds "__complex__") (fun found =>
  (* the conversion of the answer to [bool] *)
  let has_complex_attribute := negb (found =? 0) in
  Call (H5Dget_space ds) (fun dspace =>
  Call (H5Sget_simple_extent_ndims dspace) (fun rank =>
  if rank <? 0 then LengthError
  else
    let dims_out := replicate (Z.to_nat rank) 0 in
    H5Sget_simple_extent_dims dspace (fun written =>
    match written_into dims_out written with
    | Undef u => Undefined u
    | Done dims_out =>
        H5Dget_type ds (fun ty =>
        Ret {| lengths := dims_out; lt_ty := ty;
               has_complex_attribute := has_complex_attribute |})
    end))))).

Definition called (P : h5call -> bool) (tr : list event) : bool :=
  existsb (fun e => match e with Called c _ => P c | _ => false end) tr.

End probe.

(** * Properties *)

(** ** Conversions *)

Lemma to_hsize_range z : is_hsize (to_hsize z).
Proof. unfold is_hsize, to_hsize, two64. apply Z.mod_pos_bound. lia. Qed.

Lemma to_hsize_id z : is_hsize z -> to_hsize z = z.
Proof. unfold is_hsize, to_hsize. intros. by apply Z.mod_small. Qed.

Lemma to_long_range z : is_long (to_long z).
Proof.
  unfold is_long, to_long, two63, two64.
  pose proof (Z.mod_pos_bound (z + 2 ^ 63) (2 ^ 64)). lia.
Qed.

Lemma to_long_id z : is_long z -> to_long z = z.
Proof.
  unfold is_long, to_long, two63, two64. intros.
  rewrite Z.mod_small; lia.
Qed.

Lemma to_hsize_to_long z : to_hsize (to_long z) = to_hsize z.
Proof.
  unfold to_hsize, to_long, two63, two64.
  rewrite Zminus_mod_idemp_l. f_equal. lia.
Qed.

Lemma to_long_hsize_abs z : is_hsize z -> 0 <= Z.abs (to_long z) <= two63.
Proof. intros _. pose proof (to_long_range z) as H. unfold is_long in H. lia. Qed.

(** ** Greatest common divisors *)

Lemma gcd_of_nonneg l : 0 <= reference.gcd_of l.
Proof. destruct l; simpl; [lia | apply Z.gcd_nonneg]. Qed.

Lemma gcd_of_app l1 l2 :
  reference.gcd_of (l1 ++ l2) = Z.gcd (reference.gcd_of l1) (reference.gcd_of l2).
Proof.
  induction l1 as [|a l1 IH]; simpl.
  - rewrite Z.gcd_0_l. symmetry. apply Z.abs_eq, gcd_of_nonneg.
  - by rewrite IH, Z.gcd_assoc.
Qed.

Lemma gcd_of_divide l x : x ∈ l -> (reference.gcd_of l | x).
Proof.
  induction 1 as [x l | x y l _ IH]; simpl.
  - apply Z.gcd_divide_l.
  - etrans; [apply Z.gcd_divide_r | done].
Qed.

Lemma gcd_bound a b B : 0 <= a < B -> 0 <= b < B -> 0 <= Z.gcd a b < B.
Proof.
  intros Ha Hb. split; [apply Z.gcd_nonneg|].
  destruct (decide (a = 0)) as [->|Hne].
  - rewrite Z.gcd_0_l, Z.abs_eq; lia.
  - pose proof (Z.gcd_divide_l a b) as Hd.
    apply Z.divide_pos_le in Hd; lia.
Qed.

Lemma gcd_of_bound l B :
  0 < B -> Forall (fun x => 0 <= x < B) l -> 0 <= reference.gcd_of l < B.
Proof.
  intros HB. induction 1 as [|x l Hx _ IH]; simpl; [lia|].
  by apply gcd_bound.
Qed.

(** ** The decomposition on some arrays *)

(** A compact array of shape 2 x 3 x 4. *)
Example decompose_compact :
  get_L_tot_and_strides_h5 [12; 4; 1] 3 24 = Done ([24; 3; 4], [1; 1; 1]).
Proof. reflexivity. Qed.

(** Every second column of every second row of a 4 x 6 array. *)
Example decompose_strided :
  get_L_tot_and_strides_h5 [12; 2] 2 24 = Done ([24; 12], [1; 2]).
Proof. reflexivity. Qed.

Example decompose_empty :
  get_L_tot_and_strides_h5 [5; 1] 2 0 = Done ([0; 0], [1; 1]).
Proof. reflexivity. Qed.

Example decompose_scalar : get_L_tot_and_strides_h5 [] 0 1 = Done ([], []).
Proof. reflexivity. Qed.

(** ** The loops of [get_L_tot_and_strides_h5] *)

Lemma at_lookup (v : list Z) i x : v !! i = Some x -> at_ v i = Done x.
Proof. unfold at_. by intros ->. Qed.

Lemma set_at_lt (v : v_t) i x : (i < length v)%nat -> set_at v i x = Done (<[i := x]> v).
Proof. unfold set_at. intros. by rewrite decide_True. Qed.

Lemma copy_loop_spec (stri : list Z) n : forall u (s : v_t),
  (u + n)%nat = length stri -> length s = length stri ->
  copy_loop stri s u n = Done (take u s ++ (to_hsize <$> drop u stri)).
Proof.
  induction n as [|n IH]; intros u s Hn Hs; simpl.
  - rewrite take_ge, drop_ge by lia. by rewrite app_nil_r.
  - destruct (lookup_lt_is_Some_2 stri u) as [x Hx]; [lia|].
    rewrite (at_lookup _ _ _ Hx). simpl.
    rewrite set_at_lt by lia. simpl.
    rewrite IH by (rewrite ?length_insert; lia).
    f_equal.
    rewrite (take_S_r _ _ (to_hsize x)) by (apply list_lookup_insert_eq; lia).
    rewrite take_insert_ge by lia.
    rewrite (drop_S _ _ _ Hx). rewrite fmap_cons.
    by rewrite <- app_assoc.
Qed.

Lemma copy_loop_all (stri : list Z) :
  copy_loop stri (replicate (length stri) 0) 0 (length stri) = Done (to_hsize <$> stri).
Proof.
  rewrite copy_loop_spec by (rewrite ?length_replicate; lia).
  by rewrite take_0, drop_0.
Qed.

Lemma gcd_loop_long (s : v_t) n : forall L,
  (n <= length s)%nat -> is_long L ->
  exists g, gcd_loop s L n = Done g /\ is_long g.
Proof.
  induction n as [|v IH]; intros L Hn HL; simpl; [eauto|].
  destruct (lookup_lt_is_Some_2 s v) as [x Hx]; [lia|].
  rewrite (at_lookup _ _ _ Hx). simpl.
  apply IH; [lia | apply to_long_range].
Qed.

(** Entered at [u >= 1], the loop ends on [std::gcd(L', strides_h5[0])]. *)
Lemma gcd_loop_last (s : v_t) x0 n : forall L,
  s !! 0%nat = Some x0 -> (n < length s)%nat -> is_long L ->
  exists L', is_long L' /\ gcd_loop s L (S n) = Done (to_long (std_gcd L' x0)).
Proof.
  induction n as [|v IH]; intros L H0 Hn HL.
  - exists L. split; [done|]. simpl. by rewrite (at_lookup _ _ _ H0).
  - destruct (lookup_lt_is_Some_2 s (S v)) as [x Hx]; [lia|].
    destruct (IH (to_long (std_gcd L x)) H0) as (L' & HL' & Heq);
      [lia | apply to_long_range |].
    exists L'. split; [done|].
    change (gcd_loop s L (S (S v)))
      with (x' ← at_ s (S v); gcd_loop s (to_long (std_gcd L x')) (S v)).
    by rewrite (at_lookup _ _ _ Hx).
Qed.

Lemma div_loop_zero (s : v_t) L n :
  to_hsize L = 0 -> (n < length s)%nat -> div_loop s L (S n) = Undef DivisionByZero.
Proof.
  intros HL Hn. simpl.
  destruct (lookup_lt_is_Some_2 s n) as [x Hx]; [lia|].
  rewrite (at_lookup _ _ _ Hx). simpl. by rewrite HL.
Qed.

Lemma div_loop_spec (L : Z) n : forall s : v_t,
  to_hsize L <> 0 -> (n <= length s)%nat ->
  div_loop s L n = Done (((fun x => x / to_hsize L) <$> take n s) ++ drop n s).
Proof.
  induction n as [|v IH]; intros s HL Hn.
  - done.
  - destruct (lookup_lt_is_Some_2 s v) as [x Hx]; [lia|].
    cbn [div_loop]. rewrite (at_lookup _ _ _ Hx). cbn [mbind cxx_bind].
    destruct (Z.eqb_spec (to_hsize L) 0) as [|_]; [done|].
    rewrite set_at_lt by lia. cbn [mbind cxx_bind].
    rewrite IH by (rewrite ?length_insert; lia).
    f_equal.
    rewrite take_insert_ge by lia.
    rewrite drop_insert_ge by lia. rewrite Nat.sub_diag.
    rewrite (drop_S _ _ _ Hx). simpl.
    rewrite (take_S_r _ _ _ Hx), fmap_app. simpl.
    by rewrite <- app_assoc.
Qed.

Lemma outer_loop_step (Lt s : v_t) u x L :
  (S u < length s)%nat -> length Lt = length s ->
  s !! u = Some x -> gcd_loop s (to_long x) u = Done L ->
  outer_loop Lt s (S u) =
    if to_hsize L =? 0 then Undef DivisionByZero
    else outer_loop (<[S u := to_hsize L]> Lt)
                    (reference.divide_below u (to_hsize L) s) u.
Proof.
  intros Hu HLt Hx HL. cbn [outer_loop].
  rewrite (at_lookup _ _ _ Hx). cbn [mbind cxx_bind].
  rewrite HL. cbn [mbind cxx_bind].
  destruct (Z.eqb_spec (to_hsize L) 0) as [H0|Hne].
  - by rewrite div_loop_zero by (done || lia).
  - rewrite div_loop_spec by (done || lia). cbn [mbind cxx_bind].
    by rewrite set_at_lt by lia.
Qed.

Lemma divide_below_length u L (s : list Z) :
  length (reference.divide_below u L s) = length s.
Proof.
  unfold reference.divide_below.
  by rewrite length_app, length_fmap, <- length_app, take_drop.
Qed.

Lemma divide_below_lookup_le u L (s : list Z) d :
  (d <= u)%nat ->
  reference.divide_below u L s !! d = (fun x => x / L) <$> s !! d.
Proof.
  intros Hd. unfold reference.divide_below.
  destruct (decide (d < length s)%nat) as [Hlt|Hge].
  - rewrite lookup_app_l by (rewrite length_fmap, length_take; lia).
    by rewrite list_lookup_fmap, lookup_take_lt by lia.
  - rewrite (lookup_ge_None_2 s) by lia.
    apply lookup_ge_None_2.
    rewrite length_app, length_fmap, <- length_app, take_drop. lia.
Qed.

Lemma divide_below_lookup_gt u L (s : list Z) d :
  (u < d)%nat -> reference.divide_below u L s !! d = s !! d.
Proof.
  intros Hd. unfold reference.divide_below.
  destruct (decide (S u <= length s)%nat) as [Hle|Hgt].
  - rewrite lookup_app_r by (rewrite length_fmap, length_take; lia).
    rewrite length_fmap, length_take_le, lookup_drop by lia.
    f_equal. lia.
  - rewrite take_ge, drop_ge, app_nil_r by lia.
    rewrite list_lookup_fmap, (lookup_ge_None_2 s); [done | lia].
Qed.

Lemma divide_below_Forall (P : Z -> Prop) u L (s : list Z) :
  (forall x, P x -> P (x / L)) -> Forall P s ->
  Forall P (reference.divide_below u L s).
Proof.
  intros HP Hs. unfold reference.divide_below.
  apply Forall_app. split.
  - apply Forall_fmap. eapply Forall_impl; [by apply Forall_take | done].
  - by apply Forall_drop.
Qed.

Lemma div_hsize x d : 0 < d -> is_hsize x -> is_hsize (x / d).
Proof.
  unfold is_hsize. intros Hd [H0 H1]. split; [by apply Z.div_pos|].
  eapply Z.le_lt_trans; [|exact H1].
  apply Z.div_le_upper_bound; [done | nia].
Qed.

(** ** Strides that are not negative *)

Lemma small_hsize x : small x -> is_hsize x.
Proof. unfold small, is_hsize, two63, two64. lia. Qed.

Lemma small_long x : small x -> is_long x.
Proof. unfold small, is_long, two63. lia. Qed.

Lemma div_small x d : 0 < d -> small x -> small (x / d).
Proof.
  unfold small. intros Hd [H0 H1]. split; [by apply Z.div_pos|].
  eapply Z.le_lt_trans; [|exact H1].
  apply Z.div_le_upper_bound; [done | nia].
Qed.

Lemma fmap_to_hsize_small (s : list Z) : Forall small s -> to_hsize <$> s = s.
Proof.
  induction 1 as [|x s Hx _ IH]; [done|].
  rewrite fmap_cons, IH. f_equal. by apply to_hsize_id, small_hsize.
Qed.

Lemma gcd_loop_small (s : v_t) n : forall L,
  (n <= length s)%nat -> Forall small s -> small L ->
  gcd_loop s L n = Done (Z.gcd L (reference.gcd_of (take n s))).
Proof.
  induction n as [|v IH]; intros L Hn Hs HL.
  - simpl. rewrite Z.gcd_0_r, Z.abs_eq; [done | apply HL].
  - destruct (lookup_lt_is_Some_2 s v) as [x Hx]; [lia|].
    assert (small x) as Hsx by (by eapply Forall_lookup_1 in Hs).
    cbn [gcd_loop]. rewrite (at_lookup _ _ _ Hx). cbn [mbind cxx_bind].
    assert (small (Z.gcd L x)) as Hg by (by apply gcd_bound).
    unfold std_gcd. rewrite (Z.abs_eq L) by apply HL.
    rewrite to_long_id by (by apply small_long).
    rewrite IH by (done || lia). f_equal.
    rewrite (take_S_r _ _ _ Hx), gcd_of_app. simpl.
    rewrite (Z.gcd_0_r x), Z.gcd_abs_r.
    rewrite <- Z.gcd_assoc. f_equal. apply Z.gcd_comm.
Qed.

Lemma gcd_of_take_S (s : list Z) u x :
  s !! u = Some x ->
  reference.gcd_of (take (S u) s) = Z.gcd x (reference.gcd_of (take u s)).
Proof.
  intros Hx. rewrite (take_S_r _ _ _ Hx), gcd_of_app. simpl.
  rewrite (Z.gcd_0_r x), Z.gcd_abs_r. apply Z.gcd_comm.
Qed.

Lemma outer_loop_reference n : forall (RLt s : list Z),
  (n < length s)%nat -> length RLt = length s -> Forall small s ->
  outer_loop (to_hsize <$> RLt) s n = reference.stored (reference.reduce RLt s n).
Proof.
  induction n as [|u IH]; intros RLt s Hn HLt Hs.
  - cbn [outer_loop reference.reduce reference.stored].
    by rewrite (fmap_to_hsize_small s).
  - destruct (lookup_lt_is_Some_2 s u) as [x Hx]; [lia|].
    assert (small x) as Hsx by (by eapply Forall_lookup_1 in Hs).
    pose proof (gcd_loop_small s u x ltac:(lia) Hs Hsx) as HL.
    rewrite <- (to_long_id x) in HL at 1 by (by apply small_long).
    rewrite (outer_loop_step _ _ _ _ _ Hn) by (rewrite ?length_fmap; done).
    cbn [reference.reduce]. rewrite <- (gcd_of_take_S _ _ _ Hx).
    set (L := reference.gcd_of (take (S u) s)).
    assert (small L) as HsL by (apply gcd_of_bound; [done | by apply Forall_take]).
    rewrite (to_hsize_id L) by (by apply small_hsize).
    destruct (Z.eqb_spec L 0) as [|Hne]; [done|].
    replace (<[S u := L]> (to_hsize <$> RLt)) with (to_hsize <$> <[S u := L]> RLt)
      by (rewrite list_fmap_insert, (to_hsize_id L); [done | by apply small_hsize]).
    apply IH.
    + rewrite divide_below_length. lia.
    + by rewrite length_insert, divide_below_length.
    + apply divide_below_Forall; [|done].
      intros y Hy. apply div_small; [|done]. unfold small in HsL. lia.
Qed.

Lemma decomposition_loop (stri : list Z) (total_size : Z) :
  length stri <> 0%nat -> total_size <> 0 ->
  get_L_tot_and_strides_h5 stri (length stri) total_size
  = outer_loop (<[0%nat := to_hsize total_size]> (replicate (length stri) 0))
               (to_hsize <$> stri) (length stri - 1).
Proof.
  intros Hr Hts. unfold get_L_tot_and_strides_h5.
  rewrite decide_False by done.
  destruct (Z.eqb_spec total_size 0) as [|_]; [done|].
  rewrite copy_loop_all. cbn [mbind cxx_bind].
  by rewrite set_at_lt by (rewrite length_replicate; lia).
Qed.

Lemma decomposition_loop_small (stri : list Z) (total_size : Z) :
  length stri <> 0%nat -> total_size <> 0 -> Forall small stri ->
  get_L_tot_and_strides_h5 stri (length stri) total_size
  = reference.stored
      (reference.reduce (<[0%nat := total_size]> (replicate (length stri) 0)) stri
         (length stri - 1)).
Proof.
  intros Hr Hts Hs. rewrite decomposition_loop by done.
  rewrite (fmap_to_hsize_small stri) by done.
  replace (<[0%nat := to_hsize total_size]> (replicate (length stri) 0))
    with (to_hsize <$> <[0%nat := total_size]> (replicate (length stri) 0))
    by (by rewrite list_fmap_insert, fmap_replicate).
  apply outer_loop_reference; [lia | | done].
  by rewrite length_insert, length_replicate.
Qed.

(** C1 (as amended) — For a stride vector with no negative entry,
    [get_L_tot_and_strides_h5] is the reference definition: rank 0 gives two
    empty vectors; total_size 0 gives r zeros and r ones; otherwise
    strides_h5 starts as the input strides, [L_tot[0] = total_size], and for u
    from r-2 down to 0, L is the greatest common divisor of
    strides_h5[u..0], the strides at v <= u are divided by L and
    [L_tot[u+1] = L]; where the reference divides by L = 0 the code divides by
    zero as well. *)
Theorem get_L_tot_and_strides_h5_reference (stri : list Z) (total_size : Z) :
  Forall small stri ->
  get_L_tot_and_strides_h5 stri (length stri) total_size
  = reference.stored (reference.L_tot_and_strides_h5 stri total_size).
Proof.
  intros Hs. unfold reference.L_tot_and_strides_h5.
  case_decide as Hr.
  - apply nil_length_inv in Hr as ->. reflexivity.
  - destruct (Z.eqb_spec total_size 0) as [->|Hts].
    + unfold get_L_tot_and_strides_h5. rewrite decide_False by done.
      cbn [Z.eqb reference.stored]. by rewrite !fmap_replicate.
    + by apply decomposition_loop_small.
Qed.

Lemma get_L_tot_and_strides_h5_reference_witness :
  Forall small [12; 4; 1] /\
  get_L_tot_and_strides_h5 [12; 4; 1] 3 24
  = reference.stored (reference.L_tot_and_strides_h5 [12; 4; 1] 24).
Proof.
  assert (Forall small [12; 4; 1]) as H
    by (repeat constructor; unfold two63; lia).
  split; [exact H | exact (get_L_tot_and_strides_h5_reference [12; 4; 1] 24 H)].
Defined.

(** C1 (as stated) fails on a negative stride: the code divides the stride
    as an unsigned number, the reference divides the integer. *)
Lemma get_L_tot_and_strides_h5_reference_negative :
  get_L_tot_and_strides_h5 [3; -3; 1] 3 9
  <> reference.stored (reference.L_tot_and_strides_h5 [3; -3; 1] 9).
Proof. vm_compute. discriminate. Qed.

(** ** Totality of the decomposition *)

(** The divisor of an iteration of the outer loop, seen from
    [strides_h5[0]]: it is that stride itself at [u = 0], and a divisor of it
    when the stride is not zero. *)
Lemma outer_divisor (s : v_t) u x x0 :
  (u < length s)%nat -> s !! u = Some x -> s !! 0%nat = Some x0 ->
  is_hsize x0 ->
  exists L, gcd_loop s (to_long x) u = Done L /\
    (x0 <> 0 -> 0 < to_hsize L /\ (to_hsize L | x0)) /\
    (u = 0%nat -> to_hsize L = x0).
Proof.
  intros Hu Hx H0 Hx0. destruct u as [|u].
  - exists (to_long x). assert (x = x0) as -> by congruence.
    rewrite to_hsize_to_long, to_hsize_id by done.
    split; [done|]. split; [|done].
    intros Hne. unfold is_hsize in Hx0. split; [lia | reflexivity].
  - destruct (gcd_loop_last s x0 u (to_long x) H0) as (L' & HL' & ->);
      [lia | apply to_long_range |].
    eexists. split; [done|]. split; [|done].
    intros Hne. rewrite to_hsize_to_long. unfold std_gcd.
    pose proof (Z.gcd_divide_r (Z.abs L') x0) as Hd.
    pose proof (Z.gcd_nonneg (Z.abs L') x0) as Hg.
    assert (Z.gcd (Z.abs L') x0 <> 0) as Hg0
      by (intros [_ ?]%Z.gcd_eq_0; done).
    unfold is_hsize in Hx0.
    pose proof (Z.divide_pos_le _ x0 ltac:(lia) Hd).
    rewrite to_hsize_id by (unfold is_hsize; lia).
    split; [lia | done].
Qed.

Lemma outer_loop_total n : forall (Lt s : v_t) x0,
  (n < length s)%nat -> length Lt = length s -> Forall is_hsize s ->
  s !! 0%nat = Some x0 -> x0 <> 0 ->
  exists r, outer_loop Lt s n = Done r.
Proof.
  induction n as [|u IH]; intros Lt s x0 Hn HLt Hs H0 Hne; [by eexists|].
  destruct (lookup_lt_is_Some_2 s u) as [x Hx]; [lia|].
  assert (is_hsize x0) as Hx0 by (by eapply Forall_lookup_1 in Hs).
  destruct (outer_divisor s u x x0) as (L & HL & Hdiv & _); [lia | done..|].
  destruct (Hdiv Hne) as [Hpos [q Hq]].
  rewrite (outer_loop_step _ _ _ _ _ Hn HLt Hx HL).
  destruct (Z.eqb_spec (to_hsize L) 0) as [|_]; [lia|].
  apply (IH _ _ (x0 / to_hsize L)).
  - rewrite divide_below_length. lia.
  - by rewrite length_insert, divide_below_length.
  - apply divide_below_Forall; [|done]. intros y. by apply div_hsize.
  - rewrite divide_below_lookup_le by lia. by rewrite H0.
  - rewrite Hq, Z.div_mul by lia. intros ->. lia.
Qed.

Lemma outer_loop_zero n : forall (Lt s : v_t),
  (S n < length s)%nat -> length Lt = length s ->
  s !! 0%nat = Some 0 ->
  outer_loop Lt s (S n) = Undef DivisionByZero.
Proof.
  induction n as [|u IH]; intros Lt s Hn HLt H0.
  - destruct (outer_divisor s 0 0 0) as (L & HL & _ & HL0);
      [lia | done | done | unfold is_hsize, two64; lia |].
    rewrite (outer_loop_step _ _ _ _ _ Hn HLt H0 HL).
    by rewrite HL0.
  - destruct (lookup_lt_is_Some_2 s (S u)) as [x Hx]; [lia|].
    destruct (gcd_loop_long s (S u) (to_long x)) as (L & HL & _);
      [lia | apply to_long_range |].
    rewrite (outer_loop_step _ _ _ _ _ Hn HLt Hx HL).
    destruct (Z.eqb_spec (to_hsize L) 0) as [|_]; [done|].
    apply IH.
    + rewrite divide_below_length. lia.
    + by rewrite length_insert, divide_below_length.
    + rewrite divide_below_lookup_le by lia. by rewrite H0.
Qed.

Lemma decomposition_done (stri : list Z) (total_size : Z) :
  Forall is_long stri ->
  (length stri <= 1)%nat \/ total_size = 0 \/ stri !! 0%nat <> Some 0 ->
  exists r, get_L_tot_and_strides_h5 stri (length stri) total_size = Done r.
Proof.
  intros Hs Hcase.
  destruct (decide (length stri = 0%nat)) as [Hr|Hr].
  { unfold get_L_tot_and_strides_h5. rewrite decide_True by done. by eexists. }
  destruct (decide (total_size = 0)) as [->|Hts].
  { unfold get_L_tot_and_strides_h5. rewrite decide_False by done. by eexists. }
  rewrite decomposition_loop by done.
  destruct (decide (length stri = 1%nat)) as [->|Hr1]; [by eexists|].
  destruct Hcase as [?|[?|H0]]; [lia | done |].
  destruct (lookup_lt_is_Some_2 stri 0) as [x Hx]; [lia|].
  assert (is_long x) as Hlx by (by eapply Forall_lookup_1 in Hs).
  apply (outer_loop_total _ _ _ (to_hsize x)).
  - rewrite length_fmap. lia.
  - by rewrite length_insert, length_replicate, length_fmap.
  - apply Forall_fmap, Forall_forall. intros y _. apply to_hsize_range.
  - by rewrite list_lookup_fmap, Hx.
  - assert (x <> 0) as Hx0 by congruence.
    unfold to_hsize, is_long, two63, two64 in *.
    intros [k Hk]%Z.mod_divide; lia.
Qed.

(** C3 (as amended) — For a stride vector of matching rank, the function
    is total and returns a pair exactly when rank <= 1, total_size = 0 or
    stri[0] is not zero: rank 0 and total_size 0 are answered before the GCD
    loop, and with rank >= 2, total_size <> 0 and stri[0] = 0 the loop
    divides by zero. *)
Theorem get_L_tot_and_strides_h5_total (stri : list Z) (total_size : Z) :
  Forall is_long stri ->
  let rank := length stri in
  (rank = 0%nat -> get_L_tot_and_strides_h5 stri rank total_size = Done ([], []))
  /\ (rank <> 0%nat -> total_size = 0 ->
      get_L_tot_and_strides_h5 stri rank total_size
      = Done (replicate rank 0, replicate rank 1))
  /\ ((rank <= 1)%nat \/ total_size = 0 \/ stri !! 0%nat <> Some 0 ->
      exists r, get_L_tot_and_strides_h5 stri rank total_size = Done r)
  /\ ((2 <= rank)%nat -> total_size <> 0 -> stri !! 0%nat = Some 0 ->
      get_L_tot_and_strides_h5 stri rank total_size = Undef DivisionByZero).
Proof.
  intros Hs rank.
  split; [intros Hr; unfold get_L_tot_and_strides_h5; by rewrite decide_True|].
  split.
  { intros Hr ->. unfold get_L_tot_and_strides_h5. by rewrite decide_False. }
  split; [by apply decomposition_done|].
  intros Hr Hts H0. unfold rank in *.
  rewrite decomposition_loop by (done || lia).
  replace (length stri - 1)%nat with (S (length stri - 2)) by lia.
  apply outer_loop_zero.
  - rewrite length_fmap. lia.
  - by rewrite length_insert, length_replicate, length_fmap.
  - by rewrite list_lookup_fmap, H0.
Qed.

Lemma get_L_tot_and_strides_h5_total_witness :
  Forall is_long [12; 4; 1] /\
  exists r, get_L_tot_and_strides_h5 [12; 4; 1] 3 24 = Done r.
Proof.
  assert (Forall is_long [12; 4; 1]) as H
    by (repeat constructor; unfold two63; lia).
  split; [exact H|].
  apply (get_L_tot_and_strides_h5_total [12; 4; 1] 24 H).
  right. right. discriminate.
Defined.

(** C3 (as stated) fails on a zero stride: the first division of the GCD
    loop is by [strides_h5[0] = 0]. *)
Lemma get_L_tot_and_strides_h5_divides_by_zero :
  Forall is_long [0; 1] /\
  get_L_tot_and_strides_h5 [0; 1] 2 1 = Undef DivisionByZero.
Proof.
  split; [repeat constructor; unfold two63; lia | reflexivity].
Qed.

(** ** Re-expansion of the decomposition *)

Import addressing.

Lemma reduce_length n : forall (RLt s Lt sh : list Z),
  reference.reduce RLt s n = Some (Lt, sh) ->
  length Lt = length RLt /\ length sh = length s.
Proof.
  induction n as [|u IH]; intros RLt s Lt sh H; cbn [reference.reduce] in H.
  - by inversion H.
  - destruct (Z.eqb_spec (reference.gcd_of (take (S u) s)) 0); [done|].
    apply IH in H as [-> ->].
    by rewrite length_insert, divide_below_length.
Qed.

Lemma reduce_head n : forall (RLt s Lt sh : list Z),
  reference.reduce RLt s n = Some (Lt, sh) -> Lt !! 0%nat = RLt !! 0%nat.
Proof.
  induction n as [|u IH]; intros RLt s Lt sh H; cbn [reference.reduce] in H.
  - by inversion H.
  - destruct (Z.eqb_spec (reference.gcd_of (take (S u) s)) 0); [done|].
    apply IH in H as ->. by apply list_lookup_insert_ne.
Qed.

(** Every stride is its reduced stride times the block sizes of the
    dimensions inside it. *)
Lemma reduce_factors n : forall (RLt s Lt sh : list Z),
  (n < length RLt)%nat ->
  reference.reduce RLt s n = Some (Lt, sh) ->
  forall d x, s !! d = Some x ->
  exists y, sh !! d = Some y /\
    x * prod (drop (S (d `max` n)) RLt) = y * prod (drop (S d) Lt).
Proof.
  induction n as [|u IH]; intros RLt s Lt sh Hn H d x Hx;
    cbn [reference.reduce] in H.
  - inversion H; subst. exists x. by rewrite Nat.max_0_r.
  - set (L := reference.gcd_of (take (S u) s)) in *.
    destruct (Z.eqb_spec L 0) as [|HL]; [done|].
    assert (drop (S u) (<[S u := L]> RLt) = L :: drop (S (S u)) RLt) as Hdrop.
    { rewrite drop_insert_ge, Nat.sub_diag by lia.
      destruct (lookup_lt_is_Some_2 RLt (S u)) as [z Hz]; [lia|].
      by rewrite (drop_S _ _ _ Hz). }
    pose proof (IH (<[S u := L]> RLt) _ _ _
      ltac:(rewrite length_insert; lia) H) as IH'.
    destruct (decide (d <= u)%nat) as [Hd|Hd].
    + assert (L | x) as [q ->].
      { apply gcd_of_divide, list_elem_of_lookup. exists d.
        by rewrite lookup_take_lt by lia. }
      destruct (IH' d q) as (y & Hy & Heq).
      { rewrite divide_below_lookup_le, Hx by done. simpl.
        by rewrite Z.div_mul. }
      exists y. split; [done|]. rewrite <- Heq.
      rewrite (Nat.max_r d u), (Nat.max_r d (S u)) by lia.
      rewrite Hdrop. cbn [prod foldr]. fold (prod (drop (S (S u)) RLt)). lia.
    + destruct (IH' d x) as (y & Hy & Heq).
      { by rewrite divide_below_lookup_gt by lia. }
      exists y. split; [done|]. rewrite <- Heq.
      rewrite (Nat.max_l d u), (Nat.max_l d (S u)) by lia.
      by rewrite drop_insert_lt by lia.
Qed.

Lemma linear_index_factors (Lt : list Z) : forall sh stri off idx : list Z,
  length sh = length Lt -> length stri = length Lt ->
  length off = length Lt -> length idx = length Lt ->
  (forall d x y, stri !! d = Some x -> sh !! d = Some y ->
                 x = y * prod (drop (S d) Lt)) ->
  linear_index Lt (hyperslab_coords off sh idx)
  = strided_offset (linear_index Lt off) stri idx.
Proof.
  unfold strided_offset, hyperslab_coords.
  induction Lt as [|L Lt IH]; intros sh stri off idx Hsh Hstri Hoff Hidx Hf.
  - by destruct off, idx.
  - destruct sh as [|y sh], stri as [|x stri], off as [|o off], idx as [|i idx];
      try done.
    cbn [zip_with linear_index foldr]. cbn [length] in *.
    rewrite (IH sh stri off idx) by
      (try lia; intros d x' y' Hx' Hy'; apply (Hf (S d) x' y' Hx' Hy')).
    rewrite (Hf 0%nat x y eq_refl eq_refl).
    change (drop 1 (L :: Lt)) with Lt. lia.
Qed.

Lemma reduce_small n : forall (RLt s Lt sh : list Z),
  Forall small RLt -> Forall small s ->
  reference.reduce RLt s n = Some (Lt, sh) ->
  Forall small Lt /\ Forall small sh.
Proof.
  induction n as [|u IH]; intros RLt s Lt sh HRLt Hs H;
    cbn [reference.reduce] in H.
  - by inversion H; subst.
  - set (L := reference.gcd_of (take (S u) s)) in *.
    destruct (Z.eqb_spec L 0) as [|HL]; [done|].
    assert (small L) as HsL by (apply gcd_of_bound; [done | by apply Forall_take]).
    apply IH in H; [done | by apply Forall_insert |].
    apply divide_below_Forall; [|done].
    intros y Hy. apply div_small; [|done]. unfold small in HsL. lia.
Qed.

(** C2 (as amended) — For rank r >= 1, total_size > 0 and a stride vector
    of length r with no negative entry and, when r >= 2, a first entry that
    is not zero, the function returns a pair (L_tot, strides_h5) with
    [L_tot[0] = total_size] such that the element of every index vector has,
    under the hyperslab (offset, strides_h5) of a row-major dataspace of
    extents L_tot, the linear offset that the original strides give it from
    the origin of the hyperslab; so both addressings visit the same offsets
    for every count vector. *)
Theorem decomposition_round_trip (stri : list Z) (total_size : Z) :
  (1 <= length stri)%nat ->
  Forall small stri ->
  ((2 <= length stri)%nat -> stri !! 0%nat <> Some 0) ->
  0 < total_size < two63 ->
  exists L_tot strides_h5,
    get_L_tot_and_strides_h5 stri (length stri) total_size = Done (L_tot, strides_h5)
    /\ L_tot !! 0%nat = Some total_size
    /\ (forall offset idx,
          length offset = length stri -> length idx = length stri ->
          linear_index L_tot (hyperslab_coords offset strides_h5 idx)
          = strided_offset (linear_index L_tot offset) stri idx)
    /\ (forall offset count o,
          length offset = length stri -> length count = length stri ->
          visited_h5 L_tot strides_h5 offset count o
          <-> visited_stri (linear_index L_tot offset) stri count o).
Proof.
  intros Hr Hs H0 Hts.
  destruct (decomposition_done stri total_size) as [[Lt sh] Hdone].
  { eapply Forall_impl; [exact Hs | apply small_long]. }
  { destruct (decide (length stri <= 1)%nat); [by left | right; right].
    apply H0. lia. }
  pose proof (decomposition_loop_small stri total_size
                ltac:(lia) ltac:(lia) Hs) as Href.
  rewrite Hdone in Href.
  set (RLt0 := <[0%nat := total_size]> (replicate (length stri) 0)) in *.
  destruct (reference.reduce RLt0 stri (length stri - 1))
    as [[RLt Rsh]|] eqn:Hred; [|done].
  assert (length RLt0 = length stri) as HlenR
    by (unfold RLt0; by rewrite length_insert, length_replicate).
  assert (Forall small RLt0) as HsR.
  { unfold RLt0. apply Forall_insert; [|unfold small; lia].
    apply Forall_replicate. unfold small, two63. lia. }
  destruct (reduce_small _ _ _ _ _ HsR Hs Hred) as [HsLt Hssh].
  destruct (reduce_length _ _ _ _ _ Hred) as [HlenLt Hlensh].
  cbn [reference.stored] in Href.
  rewrite !fmap_to_hsize_small in Href by done.
  inversion Href; subst Lt sh. clear Href.
  assert (forall offset idx,
    length offset = length stri -> length idx = length stri ->
    linear_index RLt (hyperslab_coords offset Rsh idx)
    = strided_offset (linear_index RLt offset) stri idx) as Hpoint.
  { intros offset idx Hoff Hidx.
    apply linear_index_factors; try congruence.
    intros d x y Hx Hy.
    destruct (reduce_factors (length stri - 1) RLt0 stri RLt Rsh
      ltac:(lia) Hred d x Hx) as (y' & Hy' & Heq).
    assert (y' = y) as -> by congruence.
    assert (d < length stri)%nat by (by eapply lookup_lt_Some).
    rewrite <- Heq, drop_ge; [simpl; lia | lia]. }
  exists RLt, Rsh. split; [done|]. split.
  { rewrite (reduce_head _ _ _ _ _ Hred). unfold RLt0.
    apply list_lookup_insert_eq. rewrite length_replicate. lia. }
  split; [done|].
  intros offset count o Hoff Hcount. unfold visited_h5, visited_stri.
  split; intros (idx & Hbox & <-); exists idx; (split; [done|]).
  - symmetry. apply Hpoint; [done|]. apply Forall2_length in Hbox. lia.
  - apply Hpoint; [done|]. apply Forall2_length in Hbox. lia.
Qed.

Lemma decomposition_round_trip_witness :
  exists L_tot strides_h5,
    get_L_tot_and_strides_h5 [20; 5; 1] 3 60 = Done (L_tot, strides_h5)
    /\ L_tot !! 0%nat = Some 60
    /\ linear_index L_tot (hyperslab_coords [0; 0; 0] strides_h5 [2; 1; 3])
       = strided_offset (linear_index L_tot [0; 0; 0]) [20; 5; 1] [2; 1; 3].
Proof.
  destruct (decomposition_round_trip [20; 5; 1] 60) as (Lt & sh & H1 & H2 & H3 & _).
  - simpl. lia.
  - repeat constructor; unfold two63; lia.
  - discriminate.
  - unfold two63. lia.
  - exists Lt, sh. split; [exact H1|]. split; [exact H2|].
    apply H3; reflexivity.
Defined.

(** C2 (as stated) fails on a negative stride: the pair returned for
    [stri = [3; -3; 1]] sends the index [(0, 1, 0)] to another offset than
    the stride [-3] does, also modulo 2^64. *)
Lemma decomposition_round_trip_negative :
  exists L_tot strides_h5,
    get_L_tot_and_strides_h5 [3; -3; 1] 3 9 = Done (L_tot, strides_h5)
    /\ linear_index L_tot (hyperslab_coords [0; 0; 0] strides_h5 [0; 1; 0])
       <> strided_offset (linear_index L_tot [0; 0; 0]) [3; -3; 1] [0; 1; 0]
    /\ to_hsize (linear_index L_tot (hyperslab_coords [0; 0; 0] strides_h5 [0; 1; 0]))
       <> to_hsize (strided_offset (linear_index L_tot [0; 0; 0]) [3; -3; 1] [0; 1; 0]).
Proof.
  eexists _, _. split; [vm_compute; reflexivity|].
  split; vm_compute; discriminate.
Qed.

(** ** Runs of programs *)

Lemma exec_runs {A W : Type} (h : handler W) (p : prog A) : forall w tr o w',
  exec h p w = (tr, o, w') -> runs p tr o.
Proof.
  induction p as [a|msg|c k IH]; intros w tr o w' He; cbn [exec] in He.
  - inversion He. constructor.
  - inversion He. constructor.
  - destruct (h c w) as [r w1]. destruct (exec h (k r) w1) as [[tr1 o1] w2] eqn:Hk.
    inversion He; subst. constructor. by eapply IH.
Qed.

Lemma runs_deterministic {A : Type} (p : prog A) : forall tr o1 o2,
  runs p tr o1 -> runs p tr o2 -> o1 = o2.
Proof.
  induction p as [a|msg|c k IH]; intros tr o1 o2 H1 H2;
    inversion H1; subst; inversion H2; subst; eauto.
Qed.

Lemma calls_app (P : h5call -> bool) (tr1 tr2 : list event) :
  calls P (tr1 ++ tr2) = calls P tr1 || calls P tr2.
Proof. apply existsb_app. Qed.

Lemma calls_cons (P : h5call -> bool) c r (tr : list event) :
  calls P ((c, r) :: tr) = P c || calls P tr.
Proof. done. Qed.

Lemma calls_nil (P : h5call -> bool) : calls P [] = false.
Proof. done. Qed.

(** Evaluates [calls P] on a trace that is written out. *)
Ltac calls_eval :=
  rewrite ?calls_cons, ?calls_app, ?calls_cons, ?calls_nil;
  cbn [is_H5Dwrite is_H5Dread writes_attribute orb];
  repeat match goal with
  | H : calls ?P ?tr = false |- context [calls ?P ?tr] => rewrite H
  end;
  cbn [orb].

Lemma runs_Ret_inv {A : Type} (a : A) tr o :
  runs (Ret a) tr o -> tr = [] /\ o = Returned a.
Proof. by inversion 1. Qed.

Lemma runs_Throw_inv {A : Type} msg tr (o : outcome A) :
  runs (Throw msg) tr o -> tr = [] /\ o = Thrown msg.
Proof. by inversion 1. Qed.

Lemma runs_Call_inv {A : Type} c (k : Z -> prog A) tr o :
  runs (Call c k) tr o -> exists r tr', tr = (c, r) :: tr' /\ runs (k r) tr' o.
Proof. inversion 1; subst. by eexists _, _. Qed.

Lemma runs_bind {A B : Type} (f : A -> prog B) (p : prog A) tr1 a tr2 o :
  runs p tr1 (Returned a) -> runs (f a) tr2 o -> runs (p ≫= f) (tr1 ++ tr2) o.
Proof.
  intros Hp Hf. remember (Returned a) as oa eqn:Ho.
  induction Hp as [a'|msg|c k r tr o' _ IH]; [|done|].
  - by inversion Ho; subst.
  - cbn. constructor. by apply IH.
Qed.

Lemma runs_bind_inv {A B : Type} (f : A -> prog B) (p : prog A) : forall tr o,
  runs (prog_bind f p) tr o ->
  (exists tr1 a tr2, tr = tr1 ++ tr2 /\ runs p tr1 (Returned a) /\ runs (f a) tr2 o)
  \/ (exists msg, runs p tr (Thrown msg) /\ o = Thrown msg).
Proof.
  induction p as [a|msg|c k IH]; intros tr o Hrun; cbn [prog_bind] in Hrun.
  - left. exists [], a, tr. by repeat split; [constructor|].
  - inversion Hrun; subst. right. exists msg. by split; [constructor|].
  - inversion Hrun as [| |c' k' r tr' o' Hk]; subst.
    destruct (IH r _ _ Hk) as [(tr1 & a & tr2 & -> & Hp & Hf)|(msg & Hp & ->)].
    + left. exists ((c, r) :: tr1), a, tr2. by repeat split; [constructor|].
    + right. exists msg. by split; [constructor|].
Qed.

Ltac run_step :=
  match goal with
  | H : runs (Ret _) _ _ |- _ =>
      apply runs_Ret_inv in H; destruct H as [? ?]; simplify_eq
  | H : runs (Throw _) _ _ |- _ =>
      apply runs_Throw_inv in H; destruct H as [? ?]; simplify_eq
  | H : runs (Call _ _) _ _ |- _ =>
      apply runs_Call_inv in H; destruct H as (? & ? & -> & H)
  | H : runs _ _ _ |- _ => progress unfold call, call_ in H
  | H : runs _ _ _ |- _ =>
      progress cbn [mbind mret prog_mbind prog_ret prog_bind negb] in H
  | H : runs ?p _ _ |- _ =>
      match p with
      | context [if ?b then _ else _] => destruct b eqn:?
      end
  | H : runs (_ ≫= _) _ _ |- _ =>
      let trm := fresh "trm" in
      let ms := fresh "ms" in
      let Hm := fresh "Hmem" in
      apply runs_bind_inv in H;
      destruct H as [(trm & ms & ? & -> & Hm & H)|(? & Hm & ->)]
  end.

Ltac run_inv := repeat run_step.

(** From the tests of the source to the facts they decide. *)
Ltac tests :=
  repeat match goal with
  | H : negb _ = true |- _ => apply negb_true_iff in H
  | H : negb _ = false |- _ => apply negb_false_iff in H
  | H : _ && _ = true |- _ => apply andb_true_iff in H; destruct H
  | H : (_ =? _) = true |- _ => apply Z.eqb_eq in H
  | H : (_ =? _) = false |- _ => apply Z.eqb_neq in H
  | H : (_ <? _) = true |- _ => apply Z.ltb_lt in H
  | H : (_ <? _) = false |- _ => apply Z.ltb_ge in H
  | H : bool_decide _ = true |- _ => apply bool_decide_eq_true in H
  | H : bool_decide _ = false |- _ => apply bool_decide_eq_false in H
  end.

(** Replays a run along the tests that are known. *)
Ltac run_replay :=
  unfold call, call_;
  repeat first
    [ progress cbn beta iota delta [mbind mret prog_mbind prog_ret prog_bind negb]
    | apply runs_Ret | apply runs_Throw | apply runs_Call
    | match goal with
      | H : ?b = true |- context [?b] => rewrite H
      | H : ?b = false |- context [?b] => rewrite H
      end ].

(** Membership in a trace that is written out. *)
Ltac in_search :=
  cbn [In]; rewrite ?in_app_iff; cbn [In];
  repeat match goal with
  | |- _ \/ _ => first [left; reflexivity | left; eassumption | right]
  end.

Section marshaller.
Context `{Collaborators}.

Local Open Scope string_scope.
Local Open Scope Z_scope.
Local Notation "a +++ b" := (String.append a b)
  (at level 60, right associativity).

(** C4 — [make_mem_dspace] on a view of rank 0 is the single call
    [H5Screate(H5S_SCALAR)]: it returns the scalar dataspace, which has one
    point, and selects nothing.  On a view of rank > 0 it creates a simple
    dataspace of extents [L_tot], throws if the handle is not valid, selects
    the hyperslab (offset, stride, count) with no block when the block
    vector is empty and with the block vector otherwise, throws if the
    selection fails, and returns the dataspace. *)
Theorem make_mem_dspace_spec (v : h5_array_view) :
  (view_rank v = 0 ->
     make_mem_dspace v = call (H5Screate H5S_SCALAR)
     /\ (forall tr o, runs (make_mem_dspace v) tr o ->
           calls is_H5Sselect_hyperslab tr = false
           /\ exists id, tr = [(H5Screate H5S_SCALAR, id)] /\ o = Returned id)
     /\ (forall w, exists tr id w',
           exec H5Model.lib (make_mem_dspace v) w = (tr, Returned id, w')
           /\ H5Model.space_of w' id = Some H5Model.Scalar
           /\ (H5Model.lib (H5Sget_simple_extent_npoints id) w').1 = 1))
  /\ (view_rank v <> 0 ->
      let create := H5Screate_simple (view_rank v) (L_tot v) None in
      let select ds :=
        H5Sselect_hyperslab ds H5S_SELECT_SET
          (offset (slab v)) (stride (slab v)) (count (slab v))
          (if decide (block (slab v) = []) then None else Some (block (slab v))) in
      forall tr o, runs (make_mem_dspace v) tr o <->
        exists ds,
          (is_valid ds = false /\ tr = [(create, ds)]
           /\ o = Thrown "Cannot create the dataset")
          \/ (is_valid ds = true /\ exists err,
                tr = [(create, ds); (select ds, err)]
                /\ ((err < 0 /\ o = Thrown "Cannot set hyperslab")
                    \/ (0 <= err /\ o = Returned ds)))).
Proof.
  split.
  - intros Hrank.
    assert (make_mem_dspace v = call (H5Screate H5S_SCALAR)) as Heq
      by (unfold make_mem_dspace; by rewrite Hrank).
    split; [done|]. rewrite Heq. split.
    + intros tr o Hrun. run_inv. split; [done | by eexists].
    + intros w. unfold call. cbn [exec H5Model.lib H5Model.new_space].
      eexists _, _, _. split; [done|].
      unfold H5Model.space_of. cbn. rewrite Z.eqb_refl. by cbn.
  - intros Hrank create select tr o.
    assert (data_or_null (block (slab v))
            = if decide (block (slab v) = []) then None else Some (block (slab v)))
      as Hblock by (by destruct (block (slab v))).
    unfold make_mem_dspace, view_rank in *.
    apply Z.eqb_neq in Hrank. rewrite Hrank, Hblock. split.
    + intros Hrun. run_inv; tests; eexists;
        first [ left; by repeat split
              | right; split; [done|]; eexists; split; [done|];
                first [ left; split; [lia | done] | right; split; [lia | done] ] ].
    + intros (ds & [(Hv & -> & ->)|(Hv & err & -> & [[He ->]|[He ->]])]).
      * run_replay.
      * apply Z.ltb_lt in He. run_replay.
      * apply Z.ltb_ge in He. run_replay.
Qed.

Lemma make_mem_dspace_calls (v : h5_array_view) tr o :
  runs (make_mem_dspace v) tr o -> forall e, In e tr -> builds_dataspace e.1 = true.
Proof.
  unfold make_mem_dspace. intros Hrun e He.
  run_inv; cbn [In] in He; intuition (subst; done).
Qed.

Lemma make_mem_dspace_no_call (P : h5call -> bool) (v : h5_array_view) tr o :
  (forall c, P c = true -> builds_dataspace c = false) ->
  runs (make_mem_dspace v) tr o -> calls P tr = false.
Proof.
  intros HP Hrun. unfold calls.
  destruct (existsb (fun e => P e.1) tr) eqn:Hex; [|done].
  apply existsb_exists in Hex as (e & He & HPe).
  apply HP in HPe. by rewrite (make_mem_dspace_calls _ _ _ Hrun e He) in HPe.
Qed.

Lemma make_mem_dspace_thrown (v : h5_array_view) tr msg :
  runs (make_mem_dspace v) tr (Thrown msg) ->
  msg = "Cannot create the dataset" \/ msg = "Cannot set hyperslab".
Proof.
  unfold make_mem_dspace. intros Hrun.
  remember (Thrown msg) as o eqn:Ho. run_inv; auto.
Qed.

(** C10 — [read_attribute] looks at the type and the buffer of the view
    only: two views with the same type and buffer give the same program,
    whatever their rank and hyperslab.  For every view, if the attribute
    opens, its stored dataspace has rank 0, the stored type equals the
    view's type and [H5Aread] succeeds, the call returns. *)
Theorem read_attribute_ignores_view (obj : hid_t) (name : string) (v : h5_array_view) :
  (forall v', ty v' = ty v -> start v' = start v ->
     read_attribute obj name v' = read_attribute obj name v)
  /\ (forall attr space stored_ty err,
        is_valid attr = true -> 0 < H5Tequal stored_ty (ty v) -> 0 <= err ->
        runs (read_attribute obj name v)
          [(H5Aopen obj name H5P_DEFAULT, attr);
           (H5Aget_space attr, space);
           (H5Sget_simple_extent_ndims space, 0);
           (H5Aget_type attr, stored_ty);
           (H5Aread attr (ty v) (start v), err)]
          (Returned tt)).
Proof.
  split.
  - intros v' Hty Hstart. unfold read_attribute. by rewrite Hty, Hstart.
  - intros attr space stored_ty err Hvalid Heq Herr. unfold read_attribute.
    assert ((H5Tequal stored_ty (ty v) <? 0) = false) by (apply Z.ltb_ge; lia).
    assert ((H5Tequal stored_ty (ty v) =? 0) = false) by (apply Z.eqb_neq; lia).
    assert ((err <? 0) = false) by (by apply Z.ltb_ge).
    run_replay.
Qed.

(** C5 — On [read], when the class of the view's type differs from the
    class of the stored type, the call throws an error that names both
    types and nothing is transferred.  When the classes agree and the types
    differ, a warning goes to the error stream and that is all: the call
    does not throw the type error, and when rank and lengths agree, the
    memory dataspace is built and the file dataspace has points, [H5Dread]
    is called and decides the outcome. *)
Theorem read_type_checks (g : hid_t) (name : string) (v : h5_array_view)
    (lt : h5_lengths_type) :
  let incompatible :=
    "Incompatible types in h5_read. Expecting a " +++ get_name_of_h5_type (ty v)
    +++ " while the array stored in the hdf5 file has type "
    +++ get_name_of_h5_type (lt_ty lt) in
  let warning :=
    cerr ("WARNING: Mismatching types in h5_read. Expecting a "
          +++ get_name_of_h5_type (ty v)
          +++ " while the array stored in the hdf5 file has type "
          +++ get_name_of_h5_type (lt_ty lt) +++ newline) in
  (H5Tget_class (ty v) <> H5Tget_class (lt_ty lt) ->
     forall tr o, runs (read g name v lt) tr o ->
       o = Thrown incompatible /\ calls is_H5Dread tr = false)
  /\ (H5Tget_class (ty v) = H5Tget_class (lt_ty lt) ->
      hdf5_type_equal (ty v) (lt_ty lt) = false ->
      (forall tr o, runs (read g name v lt) tr o ->
         o <> Thrown incompatible
         /\ exists ds fs r rest,
              tr = (group_open_dataset g name, ds) :: (H5Dget_space ds, fs)
                   :: (warning, r) :: rest)
      /\ (lt_rank lt = view_rank v -> lengths lt = count (slab v) ->
          forall ds fs trm ms n err,
            runs (make_mem_dspace v) trm (Returned ms) -> 0 < n ->
            runs (read g name v lt)
              ((group_open_dataset g name, ds) :: (H5Dget_space ds, fs)
               :: (warning, 0)
               :: trm ++ [(H5Sget_simple_extent_npoints fs, n);
                          (H5Dread ds (ty v) ms fs H5P_DEFAULT (start v), err)])
              (if err <? 0
               then Thrown ("Error reading the scalar dataset " +++ name
                            +++ " in the group " +++ group_name g)
               else Returned tt))).
Proof.
  intros incompatible warning. split.
  { intros Hclass tr o Hrun. apply Z.eqb_neq in Hclass.
    unfold read in Hrun. rewrite Hclass in Hrun. by run_inv. }
  intros Hclass Hneq. apply Z.eqb_eq in Hclass. split.
  - intros tr o Hrun.
    unfold read in Hrun. rewrite Hclass, Hneq in Hrun.
    run_inv.
    all: split; [|by eexists _, _, _, _].
    all: try discriminate.
    apply make_mem_dspace_thrown in Hmem as [->| ->]; discriminate.
  - intros Hrank Hlen ds fs trm ms n err Hmem Hn.
    apply Z.eqb_eq in Hrank. apply Z.ltb_lt in Hn.
    unfold read. rewrite Hclass, Hneq, Hrank.
    rewrite (bool_decide_eq_true_2 _ Hlen).
    unfold call, call_.
    cbn beta iota delta [mbind mret prog_mbind prog_ret prog_bind negb].
    do 3 constructor.
    apply (runs_bind _ _ _ _ _ _ Hmem).
    cbn beta iota delta [mbind mret prog_mbind prog_ret prog_bind negb].
    constructor. rewrite Hn. constructor.
    destruct (err <? 0); constructor.
Qed.

(** Case analysis of a membership in a trace that is written out; an event
    of [make_mem_dspace] is a dataspace call. *)
Ltac in_cases :=
  repeat match goal with
  | H : False |- _ => destruct H
  | H : _ \/ _ |- _ => destruct H
  | H : (_, _) = (_, _) |- _ => simplify_eq
  | H : In _ (_ :: _) |- _ => cbn [In] in H
  | H : In _ [] |- _ => cbn [In] in H
  | H : In _ (_ ++ _) |- _ => apply in_app_or in H
  | H : In _ ?trm, Hm : runs (make_mem_dspace _) ?trm _ |- _ =>
      apply (make_mem_dspace_calls _ _ _ Hm) in H; discriminate H
  end.

(** C6 — On [read], when the stored rank differs from the rank of the
    view, or the stored extents differ from the count vector of the view,
    the call throws and [H5Dread] is never called: no byte reaches the
    buffer of the view.  When the type classes agree the error is the rank
    error, or the lengths error for equal ranks. *)
Theorem read_rank_and_lengths (g : hid_t) (name : string) (v : h5_array_view)
    (lt : h5_lengths_type) tr o :
  runs (read g name v lt) tr o ->
  lt_rank lt <> view_rank v \/ lengths lt <> count (slab v) ->
  (exists msg, o = Thrown msg)
  /\ calls is_H5Dread tr = false
  /\ (H5Tget_class (ty v) = H5Tget_class (lt_ty lt) ->
      (lt_rank lt <> view_rank v ->
         o = Thrown ("h5 read. Rank mismatch : expecting in file a rank "
                     +++ to_string (view_rank v)
                     +++ " while the array stored in the hdf5 file has rank "
                     +++ to_string (lt_rank lt)))
      /\ (lt_rank lt = view_rank v -> o = Thrown "h5 read. Lengths mismatch")).
Proof.
  intros Hrun Hmis. unfold read in Hrun.
  run_inv; tests; try (exfalso; destruct Hmis; congruence).
  all: split; [by eexists|]; split; [done|].
  all: intros Hclass; split; congruence.
Qed.

(** The runs of [write] that return: the dataset is created on a valid
    handle, the memory dataspace is built, and the transfer, if there is
    one, succeeds. *)
Lemma write_returns (g : hid_t) (name : string) (v : h5_array_view)
    (compress : bool) (r0 cp r1 r2 fs ds : Z) trm (ms n err r : Z) :
  is_valid ds = true -> runs (make_mem_dspace v) trm (Returned ms) ->
  let props := compress && negb (view_rank v =? 0) in
  let created :=
    ((group_unlink g name, r0)
     :: (if props
         then [(H5Pcreate H5P_DATASET_CREATE, cp);
               (H5Pset_chunk cp (view_rank v)
                  ((fun c => Z.max c 1) <$> count (slab v)), r1);
               (H5Pset_deflate cp 1, r2)]
         else [])
     ++ [(H5Screate_simple (view_rank v) (count (slab v)) None, fs);
         (H5Dcreate2 g name (ty v) fs H5P_DEFAULT
            (if props then cp else H5P_DEFAULT) H5P_DEFAULT, ds)])%list in
  let marker :=
    if is_complex v then [(h5_write_attribute ds "__complex__" "1", r)] else [] in
  (0 < n -> 0 <= err ->
     runs (write g name v compress)
       (created ++ trm
        ++ [(H5Sget_simple_extent_npoints ms, n);
            (H5Dwrite ds (ty v) ms H5S_ALL H5P_DEFAULT (start v), err)]
        ++ marker)%list
       (Returned tt))
  /\ (n <= 0 ->
      runs (write g name v compress)
        (created ++ trm ++ [(H5Sget_simple_extent_npoints ms, n)] ++ marker)%list
        (Returned tt)).
Proof.
  intros Hvalid Hmem props created marker.
  assert (forall rest o,
            runs (npoints ← call (H5Sget_simple_extent_npoints ms);
                  _ ← (if 0 <? npoints then
                         err ← call (H5Dwrite ds (ty v) ms H5S_ALL H5P_DEFAULT (start v));
                         if err <? 0 then
                           Throw ("Error writing the scalar dataset " +++ name
                                  +++ " in the group" +++ group_name g)
                         else Ret tt
                       else Ret tt);
                  if is_complex v then call_ (h5_write_attribute ds "__complex__" "1")
                  else Ret tt) rest o ->
            runs (write g name v compress) (created ++ trm ++ rest)%list o) as Hgo.
  { intros rest o Hrest. unfold write, created. fold props.
    unfold call, call_.
    cbn beta iota delta [mbind mret prog_mbind prog_ret prog_bind].
    destruct props; cbn beta iota delta [mbind mret prog_mbind prog_ret prog_bind app];
      repeat constructor; rewrite Hvalid; cbn [negb];
      apply (runs_bind _ _ _ _ _ _ Hmem); exact Hrest. }
  split.
  - intros Hn Herr. apply Hgo. apply Z.ltb_lt in Hn. apply Z.ltb_ge in Herr.
    unfold marker. destruct (is_complex v); run_replay.
  - intros Hn. apply Hgo. apply Z.ltb_ge in Hn.
    unfold marker. destruct (is_complex v); run_replay.
Qed.

(** The runs of [read] past the validation. *)
Lemma read_transfers (g : hid_t) (name : string) (v : h5_array_view)
    (lt : h5_lengths_type) (ds fs r : Z) trm (ms n err : Z) :
  H5Tget_class (ty v) = H5Tget_class (lt_ty lt) ->
  lt_rank lt = view_rank v -> lengths lt = count (slab v) ->
  runs (make_mem_dspace v) trm (Returned ms) ->
  let opened :=
    ((group_open_dataset g name, ds) :: (H5Dget_space ds, fs)
     :: (if hdf5_type_equal (ty v) (lt_ty lt) then []
         else [(cerr ("WARNING: Mismatching types in h5_read. Expecting a "
                      +++ get_name_of_h5_type (ty v)
                      +++ " while the array stored in the hdf5 file has type "
                      +++ get_name_of_h5_type (lt_ty lt) +++ newline), r)]))%list in
  (0 < n ->
     runs (read g name v lt)
       (opened ++ trm
        ++ [(H5Sget_simple_extent_npoints fs, n);
            (H5Dread ds (ty v) ms fs H5P_DEFAULT (start v), err)])%list
       (if err <? 0
        then Thrown ("Error reading the scalar dataset " +++ name
                     +++ " in the group " +++ group_name g)
        else Returned tt))
  /\ (n <= 0 ->
      runs (read g name v lt)
        (opened ++ trm ++ [(H5Sget_simple_extent_npoints fs, n)])%list
        (Returned tt)).
Proof.
  intros Hclass Hrank Hlen Hmem opened.
  apply Z.eqb_eq in Hclass. apply Z.eqb_eq in Hrank.
  assert (forall rest o,
            runs (npoints ← call (H5Sget_simple_extent_npoints fs);
                  if 0 <? npoints then
                    err ← call (H5Dread ds (ty v) ms fs H5P_DEFAULT (start v));
                    if err <? 0 then
                      Throw ("Error reading the scalar dataset " +++ name
                             +++ " in the group " +++ group_name g)
                    else Ret tt
                  else Ret tt) rest o ->
            runs (read g name v lt) (opened ++ trm ++ rest)%list o) as Hgo.
  { intros rest o Hrest. unfold read, opened.
    rewrite Hclass, Hrank, (bool_decide_eq_true_2 _ Hlen).
    unfold call, call_.
    destruct (hdf5_type_equal (ty v) (lt_ty lt));
      cbn beta iota delta [mbind mret prog_mbind prog_ret prog_bind app negb];
      repeat constructor; apply (runs_bind _ _ _ _ _ _ Hmem); exact Hrest. }
  split.
  - intros Hn. apply Hgo. apply Z.ltb_lt in Hn.
    unfold call. cbn beta iota delta [mbind mret prog_mbind prog_ret prog_bind].
    constructor. rewrite Hn. constructor. destruct (err <? 0); constructor.
  - intros Hn. apply Hgo. apply Z.ltb_ge in Hn. run_replay.
Qed.

(** C7 — An empty extent is not an error.  [write] asks
    [H5Sget_simple_extent_npoints] for the point count of the memory
    dataspace that [make_mem_dspace] built from the view, and calls
    [H5Dwrite] exactly when the count is positive; with no point the
    dataset has been created, nothing is transferred and the call returns.
    Every run whose dataset handle is valid and whose memory dataspace is
    built reaches the count, and for every answer of the library there is
    the run that transfers and the run that does not.  [read] does the same
    with the point count of the file dataspace of the dataset, past its
    validation.  The count is the count of the extent: the size of the
    selection is never asked for. *)
Theorem zero_size_selection (g : hid_t) (name : string) (v : h5_array_view)
    (compress : bool) (lt : h5_lengths_type) :
  (forall tr o, runs (write g name v compress) tr o ->
     (calls is_H5Dwrite tr = true
      <-> exists ms n, In (H5Sget_simple_extent_npoints ms, n) tr /\ 0 < n)
     /\ (forall ms n, In (H5Sget_simple_extent_npoints ms, n) tr ->
           (exists trm, runs (make_mem_dspace v) trm (Returned ms) /\ incl trm tr)
           /\ (exists fs cparms ds,
                 In (H5Dcreate2 g name (ty v) fs H5P_DEFAULT cparms H5P_DEFAULT, ds) tr
                 /\ is_valid ds = true)
           /\ (n <= 0 -> o = Returned tt /\ calls is_H5Dwrite tr = false))
     /\ (exists fs cparms ds,
           In (H5Dcreate2 g name (ty v) fs H5P_DEFAULT cparms H5P_DEFAULT, ds) tr
           /\ ((is_valid ds = false
                /\ o = Thrown ("Cannot create the dataset " +++ name
                               +++ " in the group " +++ group_name g))
               \/ (is_valid ds = true
                   /\ ((exists trm msg,
                          runs (make_mem_dspace v) trm (Thrown msg)
                          /\ incl trm tr /\ o = Thrown msg)
                       \/ (exists trm ms n,
                             runs (make_mem_dspace v) trm (Returned ms)
                             /\ incl trm tr
                             /\ In (H5Sget_simple_extent_npoints ms, n) tr
                             /\ (0 < n ->
                                 exists err,
                                   In (H5Dwrite ds (ty v) ms H5S_ALL H5P_DEFAULT
                                         (start v), err) tr)
                             /\ (n <= 0 ->
                                 o = Returned tt /\ calls is_H5Dwrite tr = false)))))))
  /\ (forall r0 cp r1 r2 fs ds trm ms n err r,
        is_valid ds = true -> runs (make_mem_dspace v) trm (Returned ms) ->
        let props := compress && negb (view_rank v =? 0) in
        let created :=
          ((group_unlink g name, r0)
           :: (if props
               then [(H5Pcreate H5P_DATASET_CREATE, cp);
                     (H5Pset_chunk cp (view_rank v)
                        ((fun c => Z.max c 1) <$> count (slab v)), r1);
                     (H5Pset_deflate cp 1, r2)]
               else [])
           ++ [(H5Screate_simple (view_rank v) (count (slab v)) None, fs);
               (H5Dcreate2 g name (ty v) fs H5P_DEFAULT
                  (if props then cp else H5P_DEFAULT) H5P_DEFAULT, ds)])%list in
        let marker :=
          if is_complex v then [(h5_write_attribute ds "__complex__" "1", r)] else [] in
        (0 < n -> 0 <= err ->
           runs (write g name v compress)
             (created ++ trm
              ++ [(H5Sget_simple_extent_npoints ms, n);
                  (H5Dwrite ds (ty v) ms H5S_ALL H5P_DEFAULT (start v), err)]
              ++ marker)%list
             (Returned tt))
        /\ (n <= 0 ->
            runs (write g name v compress)
              (created ++ trm ++ [(H5Sget_simple_extent_npoints ms, n)] ++ marker)%list
              (Returned tt)))
  /\ (forall tr o, runs (read g name v lt) tr o ->
        (calls is_H5Dread tr = true
         <-> exists fs n, In (H5Sget_simple_extent_npoints fs, n) tr /\ 0 < n)
        /\ (forall fs n, In (H5Sget_simple_extent_npoints fs, n) tr ->
              (exists ds, In (group_open_dataset g name, ds) tr
                          /\ In (H5Dget_space ds, fs) tr)
              /\ (n <= 0 -> o = Returned tt /\ calls is_H5Dread tr = false))
        /\ (exists ds fs,
              In (group_open_dataset g name, ds) tr /\ In (H5Dget_space ds, fs) tr
              /\ (((H5Tget_class (ty v) <> H5Tget_class (lt_ty lt)
                    \/ lt_rank lt <> view_rank v \/ lengths lt <> count (slab v))
                   /\ exists msg, o = Thrown msg)
                  \/ (H5Tget_class (ty v) = H5Tget_class (lt_ty lt)
                      /\ lt_rank lt = view_rank v /\ lengths lt = count (slab v)
                      /\ ((exists trm msg,
                             runs (make_mem_dspace v) trm (Thrown msg)
                             /\ incl trm tr /\ o = Thrown msg)
                          \/ (exists trm ms n,
                                runs (make_mem_dspace v) trm (Returned ms)
                                /\ incl trm tr
                                /\ In (H5Sget_simple_extent_npoints fs, n) tr
                                /\ (0 < n ->
                                    exists err,
                                      In (H5Dread ds (ty v) ms fs H5P_DEFAULT
                                            (start v), err) tr)
                                /\ (n <= 0 ->
                                    o = Returned tt
                                    /\ calls is_H5Dread tr = false)))))))
  /\ (forall ds fs r trm ms n err,
        H5Tget_class (ty v) = H5Tget_class (lt_ty lt) ->
        lt_rank lt = view_rank v -> lengths lt = count (slab v) ->
        runs (make_mem_dspace v) trm (Returned ms) ->
        let opened :=
          ((group_open_dataset g name, ds) :: (H5Dget_space ds, fs)
           :: (if hdf5_type_equal (ty v) (lt_ty lt) then []
               else [(cerr ("WARNING: Mismatching types in h5_read. Expecting a "
                            +++ get_name_of_h5_type (ty v)
                            +++ " while the array stored in the hdf5 file has type "
                            +++ get_name_of_h5_type (lt_ty lt) +++ newline), r)]))%list in
        (0 < n ->
           runs (read g name v lt)
             (opened ++ trm
              ++ [(H5Sget_simple_extent_npoints fs, n);
                  (H5Dread ds (ty v) ms fs H5P_DEFAULT (start v), err)])%list
             (if err <? 0
              then Thrown ("Error reading the scalar dataset " +++ name
                           +++ " in the group " +++ group_name g)
              else Returned tt))
        /\ (n <= 0 ->
            runs (read g name v lt)
              (opened ++ trm ++ [(H5Sget_simple_extent_npoints fs, n)])%list
              (Returned tt))).
Proof.
  split; [|split; [|split]].
  - intros tr o Hrun. unfold write in Hrun. run_inv; tests.
    all: rewrite ?app_nil_r.
    all: try pose proof (make_mem_dspace_no_call is_H5Dwrite _ _ _
               ltac:(by intros []) Hmem) as Hnone.
    all: calls_eval.
    all: split; [|split];
      [ split;
        [ intros ?; first [ done | eexists _, _; split; [in_search | done] ]
        | intros (ms' & n' & Hin & Hpos); first [ done | in_cases; lia ] ]
      | intros ms' n' Hin; in_cases;
        (split; [eexists; split; [exact Hmem | intros e He; in_search]|]);
        (split; [eexists _, _, _; split; [in_search | done]|]);
        intros Hle; first [ done | lia ]
      | eexists _, _, _; split; [in_search|];
        first
          [ left; by split
          | right; split; [done|];
            first
              [ left; eexists _, _; split; [exact Hmem|];
                split; [intros e He; in_search; exact He | done]
              | right; eexists _, _, _; split; [exact Hmem|];
                split; [intros e He; in_search|];
                split; [in_search|];
                split; [ intros Hn; first [ lia | eexists; in_search ]
                       | intros Hn; first [ lia | by split ] ] ] ] ].
  - intros r0 cp r1 r2 fs ds trm ms n err r Hvalid Hmem.
    exact (write_returns g name v compress r0 cp r1 r2 fs ds trm ms n err r
             Hvalid Hmem).
  - intros tr o Hrun. unfold read in Hrun. run_inv; tests.
    all: rewrite ?app_nil_r.
    all: try pose proof (make_mem_dspace_no_call is_H5Dread _ _ _
               ltac:(by intros []) Hmem) as Hnone.
    all: calls_eval.
    all: split; [|split];
      [ split;
        [ intros ?; first [ done | eexists _, _; split; [in_search | done] ]
        | intros (fs' & n' & Hin & Hpos); first [ done | in_cases; lia ] ]
      | intros fs' n' Hin; in_cases;
        (split; [eexists; split; in_search|]);
        intros Hle; first [ done | lia ]
      | eexists _, _; split; [in_search|]; split; [in_search|];
        first
          [ left; split; [tauto | by eexists]
          | right; split; [done|]; split; [done|]; split; [done|];
            first
              [ left; eexists _, _; split; [exact Hmem|];
                split; [intros e He; in_search; exact He | done]
              | right; eexists _, _, _; split; [exact Hmem|];
                split; [intros e He; in_search|];
                split; [in_search|];
                split; [ intros Hn; first [ lia | eexists; in_search ]
                       | intros Hn; first [ lia | by split ] ] ] ] ].
  - intros ds fs r trm ms n err Hclass Hrank Hlen Hmem.
    exact (read_transfers g name v lt ds fs r trm ms n err Hclass Hrank Hlen Hmem).
Qed.

(** C8 — [write_attribute] starts with the existence probe.  When the
    probe finds the name, the call throws at once: the probe is its only
    call, no attribute is created and nothing is transferred; run against a
    library whose probe leaves the storage as it is, the storage after the
    failure is the storage before it, the existing attribute included. *)
Theorem write_attribute_no_overwrite (obj : hid_t) (name : string) (v : h5_array_view) :
  let probe := H5LTfind_attribute obj name in
  let present := "The attribute " +++ name +++ " is already present. Can not overwrite" in
  (forall tr o, runs (write_attribute obj name v) tr o ->
     exists found rest, tr = (probe, found) :: rest
       /\ (found <> 0 ->
           rest = [] /\ o = Thrown present /\ calls writes_attribute tr = false))
  /\ (forall (W : Type) (h : handler W) (w : W),
        (h probe w).1 <> 0 -> (h probe w).2 = w ->
        exec h (write_attribute obj name v) w
        = ([(probe, (h probe w).1)], Thrown present, w)).
Proof.
  intros probe present. split.
  - intros tr o Hrun. unfold write_attribute in Hrun.
    run_inv; tests; eexists _, _; (split; [done|]); intros Hfound; done.
  - intros W h w Hfound Hsame. unfold write_attribute, call.
    cbn [mbind prog_mbind prog_bind exec]. fold probe.
    destruct (h probe w) as [found w1]. cbn [fst snd] in *. subst w1.
    apply Z.eqb_neq in Hfound. rewrite Hfound. done.
Qed.

(** C9 — In a run of [write], the marker attribute is written only for a
    view with [is_complex] set, under the name [__complex__] and with the
    value ["1"], on the dataset that the run created, as the last call of
    the run — after the transfer, which has succeeded if it took place —
    and the run returns.  A run that returns has written the marker
    exactly when [is_complex] is set, and a run for a view without the flag
    makes no call that creates or fills an attribute.  Every run creates
    the dataset and then either fails — on the handle of the dataset, in
    [make_mem_dspace], or in [H5Dwrite] — or returns, with the marker as
    its last call when [is_complex] is set; and for every answer of the
    library with a valid dataset handle, a memory dataspace and a
    successful transfer there is the run that returns, ending in the
    marker for a view with the flag. *)
Theorem write_complex_marker (g : hid_t) (name : string) (v : h5_array_view)
    (compress : bool) :
  (forall tr o, runs (write g name v compress) tr o ->
     (o = Returned tt ->
        (is_complex v = true
         <-> exists ds r, In (h5_write_attribute ds "__complex__" "1", r) tr))
     /\ (is_complex v = false -> calls writes_attribute tr = false)
     /\ (forall obj n val r, In (h5_write_attribute obj n val, r) tr ->
           is_complex v = true /\ n = "__complex__" /\ val = "1"
           /\ (exists fs cparms,
                 In (H5Dcreate2 g name (ty v) fs H5P_DEFAULT cparms H5P_DEFAULT, obj) tr)
           /\ last tr = Some (h5_write_attribute obj n val, r)
           /\ (forall c err, In (c, err) tr -> is_H5Dwrite c = true -> 0 <= err)
           /\ o = Returned tt)
     /\ (exists fs cparms ds,
           In (H5Dcreate2 g name (ty v) fs H5P_DEFAULT cparms H5P_DEFAULT, ds) tr
           /\ ((is_valid ds = false
                /\ o = Thrown ("Cannot create the dataset " +++ name
                               +++ " in the group " +++ group_name g))
               \/ (is_valid ds = true
                   /\ ((exists trm msg,
                          runs (make_mem_dspace v) trm (Thrown msg)
                          /\ incl trm tr /\ o = Thrown msg)
                       \/ (exists ms err,
                             In (H5Dwrite ds (ty v) ms H5S_ALL H5P_DEFAULT (start v),
                                 err) tr
                             /\ err < 0
                             /\ o = Thrown ("Error writing the scalar dataset " +++ name
                                            +++ " in the group" +++ group_name g))
                       \/ (o = Returned tt
                           /\ (is_complex v = true ->
                               exists r,
                                 last tr
                                 = Some (h5_write_attribute ds "__complex__" "1", r))))))))
  /\ (forall r0 cp r1 r2 fs ds trm ms n err r,
        is_valid ds = true -> runs (make_mem_dspace v) trm (Returned ms) ->
        let props := compress && negb (view_rank v =? 0) in
        let created :=
          ((group_unlink g name, r0)
           :: (if props
               then [(H5Pcreate H5P_DATASET_CREATE, cp);
                     (H5Pset_chunk cp (view_rank v)
                        ((fun c => Z.max c 1) <$> count (slab v)), r1);
                     (H5Pset_deflate cp 1, r2)]
               else [])
           ++ [(H5Screate_simple (view_rank v) (count (slab v)) None, fs);
               (H5Dcreate2 g name (ty v) fs H5P_DEFAULT
                  (if props then cp else H5P_DEFAULT) H5P_DEFAULT, ds)])%list in
        let marker :=
          if is_complex v then [(h5_write_attribute ds "__complex__" "1", r)] else [] in
        (0 < n -> 0 <= err ->
           runs (write g name v compress)
             (created ++ trm
              ++ [(H5Sget_simple_extent_npoints ms, n);
                  (H5Dwrite ds (ty v) ms H5S_ALL H5P_DEFAULT (start v), err)]
              ++ marker)%list
             (Returned tt))
        /\ (n <= 0 ->
            runs (write g name v compress)
              (created ++ trm ++ [(H5Sget_simple_extent_npoints ms, n)] ++ marker)%list
              (Returned tt))).
Proof.
  split.
  2: { intros r0 cp r1 r2 fs ds trm ms n err r Hvalid Hmem.
       exact (write_returns g name v compress r0 cp r1 r2 fs ds trm ms n err r
                Hvalid Hmem). }
  intros tr o Hrun. unfold write in Hrun. run_inv; tests.
  all: rewrite ?app_nil_r.
  all: try pose proof (make_mem_dspace_no_call writes_attribute _ _ _
             ltac:(by intros []) Hmem) as Hnone.
  all: split; [|split; [|split]].
  all: try solve [ intros Ho; split;
      [ intros Hc; first [ congruence | eexists _, _; in_search ]
      | intros (ds & r & Hin); first [ done | in_cases ] ] ].
  all: try solve [ intros Hc; first [ congruence | calls_eval; done ] ].
  all: try solve [ intros obj n val r Hin; in_cases;
      (split; [done|]); (split; [done|]); (split; [done|]);
      (split; [eexists _, _; in_search|]);
      (split; [rewrite ?app_comm_cons, ?last_app_cons, ?last_cons_cons; done|]);
      (split; [|done]);
      intros c err Hc Hw; in_cases;
      first [ discriminate Hw | lia
            | match goal with
              | Hin : In (c, _) ?trm, Hm : runs _ ?trm _ |- _ =>
                  apply (make_mem_dspace_calls _ _ _ Hm) in Hin;
                  destruct c; discriminate
              end ] ].
  all: eexists _, _, _; (split; [in_search|]);
    first
      [ left; by split
      | right; split; [done|];
        first
          [ left; eexists _, _; split; [exact Hmem|];
            split; [intros e He; in_search; exact He | done]
          | right; left; eexists _, _; split; [in_search|]; split; [lia | done]
          | right; right; split; [done|];
            intros Hc; first [ congruence
                             | eexists;
                               rewrite ?app_comm_cons, ?last_app_cons, ?last_cons_cons;
                               done ] ] ].
Qed.

End marshaller.

(** ** The marshaller on the reference library *)

Section on_reference_library.

Local Existing Instance H5Model.collaborators.
Local Open Scope string_scope.
Local Open Scope Z_scope.

Lemma make_mem_dspace_spec_witness :
  view_rank samples.scalar_view = 0
  /\ make_mem_dspace samples.scalar_view = call (H5Screate H5S_SCALAR).
Proof.
  assert (view_rank samples.scalar_view = 0) as Hrank by reflexivity.
  split; [exact Hrank|].
  exact (proj1 (proj1 (make_mem_dspace_spec samples.scalar_view) Hrank)).
Defined.

Lemma read_type_checks_witness :
  H5Tget_class (ty samples.vector_view)
    <> H5Tget_class (lt_ty (samples.stored_vector H5Model.float64))
  /\ forall tr o,
       runs (read 7 "vec" samples.vector_view (samples.stored_vector H5Model.float64)) tr o ->
       o = Thrown "Incompatible types in h5_read. Expecting a 100 while the array stored in the hdf5 file has type 200"
       /\ calls is_H5Dread tr = false.
Proof.
  assert (H5Tget_class (ty samples.vector_view)
          <> H5Tget_class (lt_ty (samples.stored_vector H5Model.float64))) as Hclass
    by (vm_compute; discriminate).
  split; [exact Hclass|].
  exact (proj1 (read_type_checks 7 "vec" samples.vector_view
                  (samples.stored_vector H5Model.float64)) Hclass).
Defined.

Lemma read_rank_and_lengths_witness :
  exists tr o,
    runs (read 7 "vec" samples.vector_view samples.stored_matrix) tr o
    /\ (lt_rank samples.stored_matrix <> view_rank samples.vector_view
        \/ lengths samples.stored_matrix <> count (slab samples.vector_view))
    /\ (exists msg, o = Thrown msg) /\ calls is_H5Dread tr = false.
Proof.
  destruct (exec H5Model.lib (read 7 "vec" samples.vector_view samples.stored_matrix)
              H5Model.empty) as [[tr o] w] eqn:He.
  pose proof (exec_runs _ _ _ _ _ _ He) as Hrun.
  assert (lt_rank samples.stored_matrix <> view_rank samples.vector_view
          \/ lengths samples.stored_matrix <> count (slab samples.vector_view)) as Hmis
    by (left; vm_compute; discriminate).
  exists tr, o. split; [exact Hrun|]. split; [exact Hmis|].
  destruct (read_rank_and_lengths 7 "vec" samples.vector_view samples.stored_matrix
              tr o Hrun Hmis) as (Hthrown & Hnone & _).
  split; [exact Hthrown | exact Hnone].
Defined.

Lemma zero_size_selection_witness :
  let transferred :=
    [(group_unlink 7 "vec", 0);
     (H5Screate_simple 1 [3] None, 1);
     (H5Dcreate2 7 "vec" H5Model.int32 1 H5P_DEFAULT H5P_DEFAULT H5P_DEFAULT, 2);
     (H5Screate_simple 1 [3] None, 3);
     (H5Sselect_hyperslab 3 H5S_SELECT_SET [0] [1] [3] None, 0);
     (H5Sget_simple_extent_npoints 3, 3);
     (H5Dwrite 2 H5Model.int32 3 H5S_ALL H5P_DEFAULT 8192, 0);
     (h5_write_attribute 2 "__complex__" "1", 0)] in
  let skipped :=
    [(group_unlink 7 "vec", 0);
     (H5Screate_simple 1 [0] None, 1);
     (H5Dcreate2 7 "vec" H5Model.int32 1 H5P_DEFAULT H5P_DEFAULT H5P_DEFAULT, 2);
     (H5Screate_simple 1 [0] None, 3);
     (H5Sselect_hyperslab 3 H5S_SELECT_SET [0] [1] [0] None, 0);
     (H5Sget_simple_extent_npoints 3, 0)] in
  runs (write 7 "vec" samples.vector_view false) transferred (Returned tt)
  /\ runs (write 7 "vec" samples.empty_view false) skipped (Returned tt)
  /\ (exec H5Model.lib (write 7 "vec" samples.vector_view false) H5Model.empty).1
     = (transferred, Returned tt)
  /\ (exec H5Model.lib (write 7 "vec" samples.empty_view false) H5Model.empty).1
     = (skipped, Returned tt).
Proof.
  intros transferred skipped.
  assert (is_valid 2 = true) as Hvalid by reflexivity.
  assert (runs (make_mem_dspace samples.vector_view)
            [(H5Screate_simple 1 [3] None, 3);
             (H5Sselect_hyperslab 3 H5S_SELECT_SET [0] [1] [3] None, 0)]
            (Returned 3)) as Hmem by (repeat constructor).
  assert (runs (make_mem_dspace samples.empty_view)
            [(H5Screate_simple 1 [0] None, 3);
             (H5Sselect_hyperslab 3 H5S_SELECT_SET [0] [1] [0] None, 0)]
            (Returned 3)) as Hmem0 by (repeat constructor).
  assert (0 < 3) as Hpoints by lia.
  assert (0 <= 0) as Hdone by lia.
  split; [|split; [|split; reflexivity]].
  - exact (proj1 (proj1 (proj2 (zero_size_selection 7 "vec" samples.vector_view false
                                  samples.stored_matrix))
                    0 0 0 0 1 2 _ 3 3 0 0 Hvalid Hmem) Hpoints Hdone).
  - exact (proj2 (proj1 (proj2 (zero_size_selection 7 "vec" samples.empty_view false
                                  samples.stored_matrix))
                    0 0 0 0 1 2 _ 3 0 0 0 Hvalid Hmem0) Hdone).
Defined.

(** C7 (as stated) fails on a slice of no element in an array of four: the
    selection has no point, the extent of the memory dataspace has four,
    and [write] calls [H5Dwrite]. *)
Lemma zero_size_selection_transferred :
  selected_points (slab samples.slice_view) = 0
  /\ (exec H5Model.lib (write 7 "s" samples.slice_view false) H5Model.empty).1
     = ([(group_unlink 7 "s", 0);
         (H5Screate_simple 1 [0] None, 1);
         (H5Dcreate2 7 "s" H5Model.int32 1 H5P_DEFAULT H5P_DEFAULT H5P_DEFAULT, 2);
         (H5Screate_simple 1 [4] None, 3);
         (H5Sselect_hyperslab 3 H5S_SELECT_SET [0] [1] [0] None, 0);
         (H5Sget_simple_extent_npoints 3, 4);
         (H5Dwrite 2 H5Model.int32 3 H5S_ALL H5P_DEFAULT 8192, 0)],
        Returned tt).
Proof. split; reflexivity. Qed.

Lemma write_attribute_no_overwrite_witness :
  (H5Model.lib (H5LTfind_attribute 7 "a") samples.with_attribute).1 <> 0
  /\ (H5Model.lib (H5LTfind_attribute 7 "a") samples.with_attribute).2
     = samples.with_attribute
  /\ exec H5Model.lib (write_attribute 7 "a" samples.vector_view) samples.with_attribute
     = ([(H5LTfind_attribute 7 "a", 1)],
        Thrown "The attribute a is already present. Can not overwrite",
        samples.with_attribute).
Proof.
  assert ((H5Model.lib (H5LTfind_attribute 7 "a") samples.with_attribute).1 <> 0)
    as Hfound by (vm_compute; discriminate).
  assert ((H5Model.lib (H5LTfind_attribute 7 "a") samples.with_attribute).2
          = samples.with_attribute) as Hsame by reflexivity.
  split; [exact Hfound|]. split; [exact Hsame|].
  exact (proj2 (write_attribute_no_overwrite 7 "a" samples.vector_view)
           _ H5Model.lib samples.with_attribute Hfound Hsame).
Defined.

Lemma write_complex_marker_witness :
  let tr :=
    [(group_unlink 7 "vec", 0);
     (H5Pcreate H5P_DATASET_CREATE, 1);
     (H5Pset_chunk 1 1 [3], 0);
     (H5Pset_deflate 1 1, 0);
     (H5Screate_simple 1 [3] None, 2);
     (H5Dcreate2 7 "vec" H5Model.int32 2 H5P_DEFAULT 1 H5P_DEFAULT, 3);
     (H5Screate_simple 1 [3] None, 4);
     (H5Sselect_hyperslab 4 H5S_SELECT_SET [0] [1] [3] None, 0);
     (H5Sget_simple_extent_npoints 4, 3);
     (H5Dwrite 3 H5Model.int32 4 H5S_ALL H5P_DEFAULT 8192, 0);
     (h5_write_attribute 3 "__complex__" "1", 0)] in
  runs (write 7 "vec" samples.vector_view true) tr (Returned tt)
  /\ (exec H5Model.lib (write 7 "vec" samples.vector_view true) H5Model.empty).1
     = (tr, Returned tt)
  /\ (is_complex samples.vector_view = true
      <-> exists ds r, In (h5_write_attribute ds "__complex__" "1", r) tr).
Proof.
  intros tr.
  assert (is_valid 3 = true) as Hvalid by reflexivity.
  assert (runs (make_mem_dspace samples.vector_view)
            [(H5Screate_simple 1 [3] None, 4);
             (H5Sselect_hyperslab 4 H5S_SELECT_SET [0] [1] [3] None, 0)]
            (Returned 4)) as Hmem by (repeat constructor).
  assert (0 < 3) as Hpoints by lia.
  assert (0 <= 0) as Hdone by lia.
  assert (runs (write 7 "vec" samples.vector_view true) tr (Returned tt)) as Hrun
    by exact (proj1 (proj2 (write_complex_marker 7 "vec" samples.vector_view true)
                       0 1 0 0 2 3 _ 4 3 0 0 Hvalid Hmem) Hpoints Hdone).
  split; [exact Hrun|]. split; [reflexivity|].
  exact (proj1 (proj1 (write_complex_marker 7 "vec" samples.vector_view true)
                  tr (Returned tt) Hrun) eq_refl).
Defined.

Lemma read_attribute_ignores_view_witness :
  is_valid 3 = true /\ 0 < H5Tequal H5Model.int32 (ty samples.vector_view) /\ 0 <= 0
  /\ runs (read_attribute 7 "a" samples.vector_view)
       [(H5Aopen 7 "a" H5P_DEFAULT, 3);
        (H5Aget_space 3, 4);
        (H5Sget_simple_extent_ndims 4, 0);
        (H5Aget_type 3, H5Model.int32);
        (H5Aread 3 (ty samples.vector_view) (start samples.vector_view), 0)]
       (Returned tt).
Proof.
  assert (is_valid 3 = true) as Hvalid by reflexivity.
  assert (0 < H5Tequal H5Model.int32 (ty samples.vector_view)) as Heq
    by (vm_compute; reflexivity).
  assert (0 <= 0) as Herr by lia.
  split; [exact Hvalid|]. split; [exact Heq|]. split; [exact Herr|].
  exact (proj2 (read_attribute_ignores_view 7 "a" samples.vector_view)
           3 4 H5Model.int32 0 Hvalid Heq Herr).
Defined.

(** The marker attribute on the reference library: after [write] the
    dataset carries [__complex__] exactly for a view with the flag. *)
Example marker_on_reference_library :
  let after v := (exec H5Model.lib (write 7 "vec" v false) H5Model.empty).2 in
  H5Model.attr_val <$> H5Model.find_attr (after samples.vector_view) 2 "__complex__"
    = Some (H5Model.Text "1")
  /\ H5Model.find_attr (after samples.empty_view) 2 "__complex__" = None.
Proof. split; reflexivity. Qed.

End on_reference_library.

(** * Further properties of the stride decomposition *)

Lemma cxx_bind_Done {A B : Type} (m : cxx A) (f : A -> cxx B) b :
  m ≫= f = Done b -> exists a, m = Done a /\ f a = Done b.
Proof. destruct m as [a|u]; [by exists a | done]. Qed.

Lemma at_Done (v : list Z) i x : at_ v i = Done x -> v !! i = Some x.
Proof. unfold at_. by destruct (v !! i); intros [= ->]. Qed.

Lemma set_at_Done (v : v_t) i x v' :
  set_at v i x = Done v' -> (i < length v)%nat /\ v' = <[i := x]> v.
Proof. unfold set_at. case_decide; [by intros [= <-] | done]. Qed.

(** What the loops keep: the lengths, the range of [hsize_t], and the
    entries outside the indices they run over. *)
Lemma copy_loop_keeps (stri : list Z) n : forall u (s s' : v_t),
  copy_loop stri s u n = Done s' ->
  length s' = length s /\ (Forall is_hsize s -> Forall is_hsize s').
Proof.
  induction n as [|n IH]; intros u s s' Hrun; cbn [copy_loop] in Hrun.
  - by inversion Hrun.
  - apply cxx_bind_Done in Hrun as (x & _ & Hrun).
    apply cxx_bind_Done in Hrun as (s1 & [Hu ->]%set_at_Done & Hrun).
    apply IH in Hrun as [-> Hh]. rewrite length_insert. split; [done|].
    intros Hs. apply Hh, Forall_insert; [done | apply to_hsize_range].
Qed.

Lemma div_loop_keeps L n : forall (s s' : v_t),
  div_loop s L n = Done s' ->
  length s' = length s
  /\ (Forall is_hsize s -> Forall is_hsize s')
  /\ (forall d, (n <= d)%nat -> s' !! d = s !! d).
Proof.
  induction n as [|v IH]; intros s s' Hrun; cbn [div_loop] in Hrun.
  - by inversion Hrun.
  - apply cxx_bind_Done in Hrun as (x & Hx%at_Done & Hrun).
    destruct (Z.eqb_spec (to_hsize L) 0) as [|Hne]; [done|].
    apply cxx_bind_Done in Hrun as (s1 & [Hv ->]%set_at_Done & Hrun).
    apply IH in Hrun as (-> & Hh & Hframe). rewrite length_insert.
    split; [done|]. split.
    + intros Hs. apply Hh, Forall_insert; [done|].
      apply div_hsize; [|by eapply Forall_lookup_1 in Hs].
      pose proof (to_hsize_range L) as HL. unfold is_hsize in HL. lia.
    + intros d Hd. rewrite Hframe by lia. apply list_lookup_insert_ne. lia.
Qed.

Lemma outer_loop_keeps n : forall (Lt s Lt' s' : v_t),
  outer_loop Lt s n = Done (Lt', s') ->
  (length Lt' = length Lt /\ length s' = length s)
  /\ (Forall is_hsize Lt -> Forall is_hsize s ->
      Forall is_hsize Lt' /\ Forall is_hsize s')
  /\ (forall d, (n <= d)%nat -> s' !! d = s !! d)
  /\ Lt' !! 0%nat = Lt !! 0%nat.
Proof.
  induction n as [|u IH]; intros Lt s Lt' s' Hrun; cbn [outer_loop] in Hrun.
  - by inversion Hrun.
  - apply cxx_bind_Done in Hrun as (x & _ & Hrun).
    apply cxx_bind_Done in Hrun as (L & _ & Hrun).
    apply cxx_bind_Done in Hrun as (s1 & Hdiv & Hrun).
    apply cxx_bind_Done in Hrun as (Lt1 & [Hu ->]%set_at_Done & Hrun).
    apply div_loop_keeps in Hdiv as (Hlen1 & Hh1 & Hframe1).
    apply IH in Hrun as ([HlenLt Hlens] & Hh & Hframe & Hhead).
    rewrite length_insert in HlenLt.
    split; [split; congruence|]. split; [|split].
    + intros HLt Hs. apply Hh; [|by apply Hh1].
      apply Forall_insert; [done | apply to_hsize_range].
    + intros d Hd. rewrite Hframe, Hframe1 by lia. done.
    + rewrite Hhead. by apply list_lookup_insert_ne.
Qed.

Lemma Forall_is_hsize_replicate n x : is_hsize x -> Forall is_hsize (replicate n x).
Proof. intros. by apply Forall_replicate. Qed.

(** X1 — Whatever the strides, the two vectors that
    [get_L_tot_and_strides_h5] returns have [rank] entries each, all of them
    values of [hsize_t]. *)
Theorem get_L_tot_and_strides_h5_shape (stri : list Z) (rank : nat) (total_size : Z)
    (Ltot strides_h5 : v_t) :
  get_L_tot_and_strides_h5 stri rank total_size = Done (Ltot, strides_h5) ->
  length Ltot = rank /\ length strides_h5 = rank
  /\ Forall is_hsize Ltot /\ Forall is_hsize strides_h5.
Proof.
  unfold get_L_tot_and_strides_h5. intros Hrun.
  assert (is_hsize 0 /\ is_hsize 1) as [H0 H1] by (unfold is_hsize, two64; lia).
  case_decide as Hr; [inversion Hrun; subst; by repeat split|].
  destruct (Z.eqb_spec total_size 0) as [|Hts].
  { inversion Hrun; subst. rewrite !length_replicate.
    by repeat split; apply Forall_is_hsize_replicate. }
  apply cxx_bind_Done in Hrun as (s0 & Hcopy & Hrun).
  apply cxx_bind_Done in Hrun as (Lt0 & [_ ->]%set_at_Done & Hrun).
  apply copy_loop_keeps in Hcopy as [Hlen0 Hh0].
  apply outer_loop_keeps in Hrun as ([HlenLt Hlens] & Hh & _ & _).
  rewrite length_insert, length_replicate in HlenLt.
  rewrite length_replicate in Hlen0.
  destruct Hh as [HhLt Hhs].
  - apply Forall_insert; [by apply Forall_is_hsize_replicate | apply to_hsize_range].
  - by apply Hh0, Forall_is_hsize_replicate.
  - repeat split; [done | congruence | done | done].
Qed.

Lemma get_L_tot_and_strides_h5_shape_witness :
  get_L_tot_and_strides_h5 [20; 5; 1] 3 60 = Done ([60; 4; 5], [1; 1; 1])
  /\ length [60; 4; 5] = 3%nat /\ length [1; 1; 1] = 3%nat.
Proof.
  assert (get_L_tot_and_strides_h5 [20; 5; 1] 3 60 = Done ([60; 4; 5], [1; 1; 1]))
    as Hrun by reflexivity.
  split; [exact Hrun|].
  destruct (get_L_tot_and_strides_h5_shape _ _ _ _ _ Hrun) as (H1 & H2 & _).
  split; [exact H1 | exact H2].
Defined.

Lemma copy_loop_Done (stri : list Z) n : forall u (s s' : v_t),
  copy_loop stri s u n = Done s' ->
  forall d, (u <= d < u + n)%nat -> s' !! d = to_hsize <$> stri !! d.
Proof.
  induction n as [|n IH]; intros u s s' Hrun d Hd; [lia|].
  cbn [copy_loop] in Hrun.
  apply cxx_bind_Done in Hrun as (x & Hx%at_Done & Hrun).
  apply cxx_bind_Done in Hrun as (s1 & [Hu ->]%set_at_Done & Hrun).
  destruct (decide (d = u)) as [->|Hne].
  - rewrite Hx. cbn.
    assert (forall m v (t t' : v_t), copy_loop stri t v m = Done t' ->
              forall i, (i < v)%nat -> t' !! i = t !! i) as Hframe.
    { clear. induction m as [|m IHm]; intros v t t' Hrun i Hi; cbn [copy_loop] in Hrun.
      - by inversion Hrun.
      - apply cxx_bind_Done in Hrun as (x & _ & Hrun).
        apply cxx_bind_Done in Hrun as (t1 & [Hv ->]%set_at_Done & Hrun).
        rewrite (IHm _ _ _ Hrun) by lia. apply list_lookup_insert_ne. lia. }
    rewrite (Hframe _ _ _ _ Hrun) by lia.
    by apply list_lookup_insert_eq.
  - apply (IH _ _ _ Hrun). lia.
Qed.

(** X2 — For rank >= 1 and total_size <> 0, whatever the strides, a
    returned pair has [L_tot[0] = total_size] and keeps the stride of the
    last dimension as it was given (both as values of [hsize_t]): the GCD
    loop divides the strides of the dimensions [0 .. rank-2] only. *)
Theorem get_L_tot_and_strides_h5_passes_through (stri : list Z) (rank : nat)
    (total_size : Z) (Ltot strides_h5 : v_t) :
  (1 <= rank)%nat -> total_size <> 0 ->
  get_L_tot_and_strides_h5 stri rank total_size = Done (Ltot, strides_h5) ->
  Ltot !! 0%nat = Some (to_hsize total_size)
  /\ strides_h5 !! (rank - 1)%nat = to_hsize <$> stri !! (rank - 1)%nat.
Proof.
  unfold get_L_tot_and_strides_h5. intros Hr Hts Hrun.
  rewrite decide_False in Hrun by lia.
  destruct (Z.eqb_spec total_size 0) as [|_]; [done|].
  apply cxx_bind_Done in Hrun as (s0 & Hcopy & Hrun).
  apply cxx_bind_Done in Hrun as (Lt0 & [Hlen ->]%set_at_Done & Hrun).
  apply outer_loop_keeps in Hrun as (_ & _ & Hframe & Hhead).
  split.
  - rewrite Hhead. by apply list_lookup_insert_eq.
  - rewrite Hframe by lia. apply (copy_loop_Done _ _ _ _ _ Hcopy). lia.
Qed.

Lemma get_L_tot_and_strides_h5_passes_through_witness :
  exists Ltot strides_h5,
    get_L_tot_and_strides_h5 [12; 2] 2 24 = Done (Ltot, strides_h5)
    /\ Ltot !! 0%nat = Some 24 /\ strides_h5 !! 1%nat = Some 2.
Proof.
  assert (get_L_tot_and_strides_h5 [12; 2] 2 24 = Done ([24; 12], [1; 2]))
    as Hrun by reflexivity.
  exists [24; 12], [1; 2]. split; [exact Hrun|].
  exact (get_L_tot_and_strides_h5_passes_through [12; 2] 2 24 _ _
           ltac:(lia) ltac:(lia) Hrun).
Defined.

Lemma copy_loop_ext (stri1 stri2 : list Z) n : forall u (s : v_t),
  (forall i, (u <= i < u + n)%nat -> stri1 !! i = stri2 !! i) ->
  copy_loop stri1 s u n = copy_loop stri2 s u n.
Proof.
  induction n as [|n IH]; intros u s Hsame; [done|].
  cbn [copy_loop]. unfold at_. rewrite (Hsame u) by lia.
  destruct (stri2 !! u) as [x|]; [|done]. cbn.
  destruct (set_at s u (to_hsize x)) as [s1|]; [|done]. cbn.
  apply IH. intros i Hi. apply Hsame. lia.
Qed.

Lemma copy_loop_short (stri : list Z) n : forall u (s : v_t),
  (u <= length stri < u + n)%nat -> (u + n <= length s)%nat ->
  copy_loop stri s u n = Undef OutOfBounds.
Proof.
  induction n as [|n IH]; intros u s Hu Hs; [lia|].
  cbn [copy_loop]. unfold at_.
  destruct (stri !! u) as [x|] eqn:Hx; [|done]. cbn.
  apply lookup_lt_Some in Hx.
  rewrite set_at_lt by lia. cbn.
  apply IH; [lia | rewrite length_insert; lia].
Qed.

(** X3 — [get_L_tot_and_strides_h5] reads the entries [stri[0 .. rank-1]]
    and no other: two stride arrays that agree on them give the same
    result.  When the array has fewer than [rank] entries and the call is
    not answered by the rank 0 or total_size 0 shortcut, the copy loop
    reads past its end. *)
Theorem get_L_tot_and_strides_h5_reads (stri : list Z) (rank : nat) (total_size : Z) :
  (forall stri', (forall i, (i < rank)%nat -> stri !! i = stri' !! i) ->
     get_L_tot_and_strides_h5 stri rank total_size
     = get_L_tot_and_strides_h5 stri' rank total_size)
  /\ ((length stri < rank)%nat -> total_size <> 0 ->
      get_L_tot_and_strides_h5 stri rank total_size = Undef OutOfBounds).
Proof.
  unfold get_L_tot_and_strides_h5. split.
  - intros stri' Hsame. case_decide; [done|].
    destruct (total_size =? 0); [done|].
    rewrite (copy_loop_ext stri stri'); [done|]. intros i Hi. apply Hsame. lia.
  - intros Hshort Hts. rewrite decide_False by lia.
    destruct (Z.eqb_spec total_size 0) as [|_]; [done|].
    rewrite copy_loop_short; [done | lia | rewrite length_replicate; lia].
Qed.

Lemma get_L_tot_and_strides_h5_reads_witness :
  get_L_tot_and_strides_h5 [12; 4; 1; 77] 3 24
  = get_L_tot_and_strides_h5 [12; 4; 1] 3 24
  /\ get_L_tot_and_strides_h5 [12; 4] 3 24 = Undef OutOfBounds.
Proof.
  split.
  - apply (proj1 (get_L_tot_and_strides_h5_reads [12; 4; 1; 77] 3 24)).
    intros [|[|[|i]]] Hi; [reflexivity.. | lia].
  - apply (proj2 (get_L_tot_and_strides_h5_reads [12; 4] 3 24)); cbn; lia.
Defined.

(** ** Contiguous arrays *)

Lemma prod_app (l1 l2 : list Z) : prod (l1 ++ l2) = prod l1 * prod l2.
Proof.
  unfold prod. induction l1 as [|a l1 IH]; cbn [app foldr]; [lia|].
  rewrite IH. lia.
Qed.

Lemma prod_pos (l : list Z) : Forall (fun d => 0 < d) l -> 0 < prod l.
Proof.
  unfold prod. induction 1 as [|a l Ha _ IH]; cbn [foldr]; lia.
Qed.

Lemma elem_le_prod (l : list Z) x :
  Forall (fun d => 0 < d) l -> x ∈ l -> 0 < x <= prod l.
Proof.
  intros Hl. induction Hl as [|a l Ha Hl IH]; intros Hx; [by inversion Hx|].
  pose proof (prod_pos l Hl) as Hp. unfold prod in *. cbn [foldr].
  apply elem_of_cons in Hx as [->|Hx]; [nia|].
  specialize (IH Hx). nia.
Qed.

Lemma row_major_strides_length (shape : list Z) :
  length (layout.row_major_strides shape) = length shape.
Proof. induction shape as [|a l IH]; cbn; [done | by rewrite IH]. Qed.

Lemma row_major_strides_bound (shape : list Z) :
  Forall (fun d => 0 < d) shape ->
  Forall (fun x => 0 < x <= prod shape) (layout.row_major_strides shape).
Proof.
  induction 1 as [|a l Ha Hl IH]; cbn [layout.row_major_strides]; [done|].
  pose proof (prod_pos l Hl) as Hp.
  change (prod (a :: l)) with (a * prod l).
  constructor; [nia|].
  eapply Forall_impl; [exact IH|]. cbn. intros x Hx. nia.
Qed.

Lemma row_major_strides_snoc (shape : list Z) d :
  layout.row_major_strides (shape ++ [d])
  = ((fun x => x * d) <$> layout.row_major_strides shape) ++ [1].
Proof.
  induction shape as [|a l IH]; [done|].
  cbn [app layout.row_major_strides fmap list_fmap].
  rewrite IH, prod_app. cbn [app]. do 2 f_equal. unfold prod. cbn. lia.
Qed.

Lemma gcd_of_scale (l : list Z) d :
  0 <= d -> reference.gcd_of ((fun x => x * d) <$> l) = reference.gcd_of l * d.
Proof.
  intros Hd. induction l as [|a l IH]; [done|].
  cbn [fmap list_fmap reference.gcd_of foldr].
  fold (reference.gcd_of ((fun x => x * d) <$> l)). fold (reference.gcd_of l).
  rewrite IH. by apply Z.gcd_mul_mono_r_nonneg.
Qed.

Lemma gcd_of_row_major_strides (shape : list Z) :
  shape <> [] -> reference.gcd_of (layout.row_major_strides shape) = 1.
Proof.
  destruct shape as [|a l] using rev_ind; [done|]. intros _.
  rewrite row_major_strides_snoc, gcd_of_app. cbn. apply Z.gcd_1_r.
Qed.

Lemma reduce_row_major n : forall (shape RLt : list Z),
  Forall (fun d => 0 < d) shape ->
  (S n <= length shape)%nat -> (S n <= length RLt)%nat ->
  reference.reduce RLt
    (layout.row_major_strides (take (S n) shape) ++ replicate (length RLt - S n) 1) n
  = Some (take 1 RLt ++ take n (drop 1 shape) ++ drop (S n) RLt,
          replicate (length RLt) 1).
Proof.
  induction n as [|u IH]; intros shape RLt Hpos Hshape HRLt.
  - cbn [reference.reduce]. f_equal. f_equal.
    + by rewrite take_0, app_nil_l, take_drop.
    + destruct shape as [|d shape]; [cbn in Hshape; lia|].
      destruct (length RLt) as [|r]; [lia|]. cbn. by rewrite Nat.sub_0_r.
  - destruct (lookup_lt_is_Some_2 shape (S u)) as [d Hd]; [lia|].
    assert (0 < d) as Hdpos by (by eapply Forall_lookup_1 in Hpos).
    rewrite (take_S_r _ _ _ Hd), row_major_strides_snoc.
    set (A := layout.row_major_strides (take (S u) shape)).
    assert (length A = S u) as HlenA
      by (unfold A; rewrite row_major_strides_length, length_take; lia).
    assert (reference.gcd_of A = 1) as HgcdA.
    { apply gcd_of_row_major_strides. intros Hnil.
      apply (f_equal length) in Hnil. rewrite length_take in Hnil.
      cbn [length] in Hnil. lia. }
    set (scaled := (fun x => x * d) <$> A).
    assert (length scaled = S u) as Hlens by (unfold scaled; by rewrite length_fmap).
    rewrite <- app_assoc.
    replace ([1] ++ replicate (length RLt - S (S u)) 1)
      with (replicate (length RLt - S u) 1)
      by (replace (length RLt - S u)%nat with (S (length RLt - S (S u))) by lia; done).
    cbn [reference.reduce].
    rewrite take_app_length' by done.
    assert (reference.gcd_of scaled = d) as ->
      by (unfold scaled; rewrite gcd_of_scale, HgcdA by lia; lia).
    destruct (Z.eqb_spec d 0) as [|_]; [lia|].
    unfold reference.divide_below.
    rewrite take_app_length', drop_app_length' by done.
    assert ((fun x : Z => x / d) <$> scaled = A) as ->.
    { unfold scaled. rewrite <- list_fmap_compose.
      rewrite <- (list_fmap_id A) at 2. apply list_fmap_ext.
      intros i x _. cbn. by rewrite Z.div_mul by lia. }
    pose proof (IH shape (<[S u := d]> RLt) Hpos ltac:(lia)
                  ltac:(rewrite length_insert; lia)) as IH'.
    rewrite length_insert in IH'. fold A in IH'. rewrite IH'.
    f_equal. f_equal.
    rewrite take_insert_ge by lia.
    rewrite drop_insert_ge, Nat.sub_diag by lia.
    destruct (lookup_lt_is_Some_2 RLt (S u)) as [z Hz]; [lia|].
    rewrite (drop_S _ _ _ Hz). cbn [insert list_insert].
    rewrite (take_S_r (drop 1 shape) u d) by (rewrite lookup_drop; exact Hd).
    by rewrite <- !app_assoc.
Qed.

(** X4 — A contiguous row-major array decomposes to unit strides: for a
    shape [(n_0, ..., n_{r-1})] of positive extents with fewer than 2^63
    elements, the strides of the contiguous array and its element count give
    [L_tot = (n_0 * ... * n_{r-1}, n_1, ..., n_{r-1})] and
    [strides_h5 = (1, ..., 1)]. *)
Theorem get_L_tot_and_strides_h5_contiguous (shape : list Z) :
  shape <> [] -> Forall (fun d => 0 < d) shape -> prod shape < two63 ->
  get_L_tot_and_strides_h5 (layout.row_major_strides shape) (length shape) (prod shape)
  = Done (prod shape :: drop 1 shape, replicate (length shape) 1).
Proof.
  intros Hne Hpos Hbound.
  pose proof (prod_pos shape Hpos) as Hp.
  assert (0 < length shape)%nat as Hr by (destruct shape; [done | cbn; lia]).
  assert (Forall small (layout.row_major_strides shape)) as Hsmall.
  { eapply Forall_impl; [by apply row_major_strides_bound|].
    cbn. unfold small. intros x Hx. lia. }
  rewrite <- (row_major_strides_length shape) at 1.
  rewrite decomposition_loop_small by (rewrite ?row_major_strides_length; lia || done).
  rewrite row_major_strides_length.
  set (RLt := <[0%nat := prod shape]> (replicate (length shape) 0)).
  assert (length RLt = length shape) as HlenR
    by (unfold RLt; by rewrite length_insert, length_replicate).
  pose proof (reduce_row_major (length shape - 1) shape RLt Hpos
                ltac:(lia) ltac:(lia)) as Hred.
  replace (S (length shape - 1)) with (length shape) in Hred by lia.
  rewrite take_ge, HlenR, Nat.sub_diag, app_nil_r in Hred by lia.
  rewrite Hred. cbn [reference.stored].
  rewrite (drop_ge RLt), app_nil_r by lia.
  rewrite (take_ge (drop 1 shape)) by (rewrite length_drop; lia).
  replace (take 1 RLt) with [prod shape]
    by (unfold RLt; destruct (length shape); [lia | done]).
  rewrite fmap_replicate. cbn [app].
  rewrite (fmap_to_hsize_small (prod shape :: drop 1 shape)); [done|].
  constructor; [unfold small; lia|].
  apply Forall_forall. intros x Hx.
  assert (x ∈ shape) as Hin.
  { apply list_elem_of_lookup in Hx as [i Hi]. rewrite lookup_drop in Hi.
    by eapply list_elem_of_lookup_2. }
  pose proof (elem_le_prod shape x Hpos Hin). unfold small. lia.
Qed.

Lemma get_L_tot_and_strides_h5_contiguous_witness :
  get_L_tot_and_strides_h5 (layout.row_major_strides [2; 3; 4]) 3 (prod [2; 3; 4])
  = Done ([24; 3; 4], [1; 1; 1]).
Proof.
  apply (get_L_tot_and_strides_h5_contiguous [2; 3; 4]).
  - discriminate.
  - repeat constructor.
  - reflexivity.
Defined.

(** ** Positive strides *)

Lemma reduce_positive n : forall (RLt s Lt sh : list Z),
  (n < length RLt)%nat ->
  Forall (fun x => 0 < x) s ->
  (forall k x, (n < k)%nat -> RLt !! k = Some x -> 0 < x) ->
  reference.reduce RLt s n = Some (Lt, sh) ->
  Forall (fun x => 0 < x) sh
  /\ (forall k x, (1 <= k)%nat -> Lt !! k = Some x -> 0 < x).
Proof.
  induction n as [|u IH]; intros RLt s Lt sh Hn Hs HRLt Hred;
    cbn [reference.reduce] in Hred.
  - inversion Hred; subst. split; [done|]. intros k x Hk. apply HRLt. lia.
  - set (L := reference.gcd_of (take (S u) s)) in *.
    destruct (Z.eqb_spec L 0) as [|HL]; [done|].
    assert (0 < L) as HLpos by (pose proof (gcd_of_nonneg (take (S u) s)); lia).
    apply IH in Hred; [done | rewrite length_insert; lia | |].
    + apply Forall_lookup_2. intros d y Hy.
      destruct (decide (d <= u)%nat) as [Hd|Hd].
      * rewrite divide_below_lookup_le in Hy by done.
        destruct (s !! d) as [x|] eqn:Hx; [|done]. cbn in Hy. inversion Hy; subst.
        assert (L | x) as [q ->].
        { apply gcd_of_divide, list_elem_of_lookup. exists d.
          by rewrite lookup_take_lt by lia. }
        rewrite Z.div_mul by lia.
        eapply Forall_lookup_1 in Hs; [|exact Hx]. cbn in Hs. nia.
      * rewrite divide_below_lookup_gt in Hy by lia.
        by eapply Forall_lookup_1 in Hs.
    + intros k x Hk Hx. destruct (decide (k = S u)) as [->|Hne].
      * rewrite list_lookup_insert_eq in Hx by lia. by inversion Hx; subst.
      * rewrite list_lookup_insert_ne in Hx by done. apply (HRLt k x); [lia | done].
Qed.

(** X5 — Positive strides give positive results: for rank >= 1, a
    positive total_size and strides that are all positive, the function
    returns a pair in which every extent of [L_tot] and every stride of
    [strides_h5] is at least 1. *)
Theorem get_L_tot_and_strides_h5_positive (stri : list Z) (total_size : Z) :
  (1 <= length stri)%nat ->
  Forall (fun x => 0 < x < two63) stri -> 0 < total_size < two63 ->
  exists Ltot strides_h5,
    get_L_tot_and_strides_h5 stri (length stri) total_size = Done (Ltot, strides_h5)
    /\ Forall (fun x => 1 <= x) Ltot /\ Forall (fun x => 1 <= x) strides_h5.
Proof.
  intros Hr Hs Hts.
  assert (Forall small stri) as Hsmall
    by (eapply Forall_impl; [exact Hs|]; unfold small; cbn; lia).
  assert (Forall (fun x => 0 < x) stri) as Hpos
    by (eapply Forall_impl; [exact Hs|]; cbn; lia).
  destruct (decomposition_done stri total_size) as [[Lt sh] Hdone].
  { eapply Forall_impl; [exact Hsmall | apply small_long]. }
  { right. right. destruct stri as [|x stri]; [cbn in Hr; lia|].
    apply Forall_cons in Hpos as [Hx _]. cbn. intros [= ->]. lia. }
  pose proof (decomposition_loop_small stri total_size
                ltac:(lia) ltac:(lia) Hsmall) as Href.
  rewrite Hdone in Href.
  set (RLt0 := <[0%nat := total_size]> (replicate (length stri) 0)) in *.
  destruct (reference.reduce RLt0 stri (length stri - 1))
    as [[RLt Rsh]|] eqn:Hred; [|done].
  assert (length RLt0 = length stri) as HlenR
    by (unfold RLt0; by rewrite length_insert, length_replicate).
  assert (Forall small RLt0) as HsR.
  { unfold RLt0. apply Forall_insert; [|unfold small; lia].
    apply Forall_replicate. unfold small, two63. lia. }
  destruct (reduce_small _ _ _ _ _ HsR Hsmall Hred) as [HsLt Hssh].
  destruct (reduce_positive (length stri - 1) RLt0 stri RLt Rsh
              ltac:(lia) Hpos) as [Hpsh HpLt]; [|exact Hred|].
  { intros k x Hk Hx. apply lookup_lt_Some in Hx. lia. }
  cbn [reference.stored] in Href.
  rewrite !fmap_to_hsize_small in Href by done.
  inversion Href; subst Lt sh. clear Href.
  exists RLt, Rsh. split; [done|]. split.
  - apply Forall_lookup_2. intros k x Hx. destruct k as [|k].
    + rewrite (reduce_head _ _ _ _ _ Hred) in Hx. unfold RLt0 in Hx.
      rewrite list_lookup_insert_eq in Hx by (rewrite length_replicate; lia).
      inversion Hx; subst. lia.
    + pose proof (HpLt (S k) x ltac:(lia) Hx). lia.
  - eapply Forall_impl; [exact Hpsh|]. cbn. lia.
Qed.

Lemma get_L_tot_and_strides_h5_positive_witness :
  exists Ltot strides_h5,
    get_L_tot_and_strides_h5 [30; 6; 2] 3 60 = Done (Ltot, strides_h5)
    /\ Forall (fun x => 1 <= x) Ltot /\ Forall (fun x => 1 <= x) strides_h5.
Proof.
  apply (get_L_tot_and_strides_h5_positive [30; 6; 2] 60).
  - cbn. lia.
  - repeat constructor; unfold two63; lia.
  - unfold two63. lia.
Defined.

(** * Further properties of the marshaller *)

Section marshaller_more.
Context `{Collaborators}.

Local Open Scope string_scope.
Local Open Scope Z_scope.
Local Notation "a +++ b" := (String.append a b)
  (at level 60, right associativity).

(** X6 — A read that passes the validation fails in the transfer only:
    when the class of the view's type is the class of the stored type and
    the count of the view is the stored lengths (which makes the ranks
    equal), a run of [read] returns, or throws one of the two errors of the
    memory dataspace, or throws the read error after an [H5Dread] that
    answered a negative value. *)
Theorem read_validated (g : hid_t) (name : string) (v : h5_array_view)
    (lt : h5_lengths_type) tr o :
  H5Tget_class (ty v) = H5Tget_class (lt_ty lt) ->
  lengths lt = count (slab v) ->
  runs (read g name v lt) tr o ->
  lt_rank lt = view_rank v
  /\ (o = Returned tt
      \/ o = Thrown "Cannot create the dataset"
      \/ o = Thrown "Cannot set hyperslab"
      \/ (o = Thrown ("Error reading the scalar dataset " +++ name
                      +++ " in the group " +++ group_name g)
          /\ exists ds ms fs err,
               In (H5Dread ds (ty v) ms fs H5P_DEFAULT (start v), err) tr
               /\ err < 0)).
Proof.
  intros Hclass Hlen Hrun.
  assert (lt_rank lt = view_rank v) as Hrank
    by (unfold lt_rank, view_rank, hyperslab_rank; by rewrite Hlen).
  split; [done|]. unfold read in Hrun.
  apply Z.eqb_eq in Hclass. rewrite Hclass in Hrun.
  run_inv; tests; try congruence.
  all: try (apply make_mem_dspace_thrown in Hmem as [->| ->]); auto.
  all: right; right; right; split; [done|]; eexists _, _, _, _;
       split; [in_search | done].
Qed.

Ltac in_cases :=
  repeat match goal with
  | H : False |- _ => destruct H
  | H : _ \/ _ |- _ => destruct H
  | H : (_, _) = (_, _) |- _ => simplify_eq
  | H : @eq h5call _ _ |- _ => first [discriminate H | injection H as; subst]
  | H : In _ (_ :: _) |- _ => cbn [In] in H
  | H : In _ [] |- _ => cbn [In] in H
  | H : In _ (_ ++ _) |- _ => apply in_app_or in H
  | H : In _ ?trm, Hm : runs (make_mem_dspace _) ?trm _ |- _ =>
      apply (make_mem_dspace_calls _ _ _ Hm) in H; discriminate H
  end.

Ltac calls_eval' :=
  rewrite ?calls_cons, ?calls_app, ?calls_cons, ?calls_nil;
  cbn [changes_file sets_properties is_H5Aread is_H5Dwrite is_H5Dread
       writes_attribute orb];
  repeat match goal with
  | H : calls ?P ?tr = false |- context [calls ?P ?tr] => rewrite H
  end;
  cbn [orb].

(** X7 — The two readers leave the file as it is: a run of [read] or of
    [read_attribute] makes no call that unlinks, creates or writes a
    dataset or an attribute. *)
Theorem readers_change_nothing (g : hid_t) (name : string) (v : h5_array_view)
    (lt : h5_lengths_type) :
  (forall tr o, runs (read g name v lt) tr o -> calls changes_file tr = false)
  /\ (forall tr o, runs (read_attribute g name v) tr o ->
        calls changes_file tr = false).
Proof.
  split; intros tr o Hrun.
  - unfold read in Hrun. run_inv.
    all: rewrite ?app_nil_r.
    all: try pose proof (make_mem_dspace_no_call changes_file _ _ _
               ltac:(by intros []) Hmem) as Hnone.
    all: by calls_eval'.
  - unfold read_attribute in Hrun. run_inv; by calls_eval'.
Qed.

(** X8 — [write] overwrites: every run starts by unlinking [name] in the
    group and goes on to create the dataset, and a dataset is created under
    the given group and name only, with the type of the view and with the
    dataspace that [H5Screate_simple] returned for the count vector of the
    view — the extents of the stored dataset are the counts, not [L_tot]. *)
Theorem write_creates_dataset (g : hid_t) (name : string) (v : h5_array_view)
    (compress : bool) tr o :
  runs (write g name v compress) tr o ->
  (exists r rest, tr = (group_unlink g name, r) :: rest)
  /\ (exists fs cparms ds,
        In (H5Screate_simple (view_rank v) (count (slab v)) None, fs) tr
        /\ In (H5Dcreate2 g name (ty v) fs H5P_DEFAULT cparms H5P_DEFAULT, ds) tr)
  /\ (forall loc nm t fs lcpl dcpl dapl ds,
        In (H5Dcreate2 loc nm t fs lcpl dcpl dapl, ds) tr ->
        loc = g /\ nm = name /\ t = ty v
        /\ In (H5Screate_simple (view_rank v) (count (slab v)) None, fs) tr).
Proof.
  intros Hrun. unfold write in Hrun. run_inv.
  all: rewrite ?app_nil_r.
  all: split; [by eexists _, _|].
  all: split; [eexists _, _, _; split; in_search|].
  all: intros loc nm t fs lcpl dcpl dapl ds Hin; in_cases.
  all: repeat split; in_search.
Qed.

(** X9 — Compression is asked for views of rank > 0 only, and with chunks
    that are never empty: with [compress] and rank > 0 a run of [write]
    creates a dataset-creation property list, sets on it chunks of
    [max(count[i], 1)] elements per dimension and deflate level 1, and
    creates the dataset with it; without [compress], or for a scalar, the
    run makes no property-list call and creates the dataset with the
    default properties. *)
Theorem write_chunks (g : hid_t) (name : string) (v : h5_array_view)
    (compress : bool) tr o :
  runs (write g name v compress) tr o ->
  let chunk_dims := (fun c => Z.max c 1) <$> count (slab v) in
  (Forall (fun c => 1 <= c) chunk_dims
   /\ Z.of_nat (length chunk_dims) = view_rank v
   /\ forall i c, count (slab v) !! i = Some c -> 1 <= c -> chunk_dims !! i = Some c)
  /\ (compress = true -> view_rank v <> 0 ->
      exists cparms r1 r2 fs ds,
        In (H5Pcreate H5P_DATASET_CREATE, cparms) tr
        /\ In (H5Pset_chunk cparms (view_rank v) chunk_dims, r1) tr
        /\ In (H5Pset_deflate cparms 1, r2) tr
        /\ In (H5Dcreate2 g name (ty v) fs H5P_DEFAULT cparms H5P_DEFAULT, ds) tr)
  /\ (compress = false \/ view_rank v = 0 ->
      calls sets_properties tr = false
      /\ exists fs ds,
           In (H5Dcreate2 g name (ty v) fs H5P_DEFAULT H5P_DEFAULT H5P_DEFAULT, ds) tr).
Proof.
  intros Hrun chunk_dims. split.
  { unfold chunk_dims. split; [|split].
    - apply Forall_fmap, Forall_forall. intros c _. cbn. lia.
    - by rewrite length_fmap.
    - intros i c Hc Hle. rewrite list_lookup_fmap, Hc. cbn. f_equal. lia. }
  unfold write in Hrun. run_inv.
  all: repeat match goal with
       | Hb : _ && _ = false |- _ => apply andb_false_iff in Hb; destruct Hb
       end; tests.
  all: rewrite ?app_nil_r.
  all: try pose proof (make_mem_dspace_no_call sets_properties _ _ _
             ltac:(by intros []) Hmem) as Hnone.
  all: split;
    [ intros Hc Hr; first [ congruence | eexists _, _, _, _, _; repeat split; in_search ]
    | intros Hc; first [ exfalso; destruct Hc; congruence
                       | split; [by calls_eval' | eexists _, _; in_search] ] ].
Qed.

(** X10 — A failure stops [write] where it happens: when [H5Dcreate2]
    answers a handle that is not valid, the run throws the error that names
    the dataset and the group and makes no further call; when [H5Dwrite]
    answers a negative value, the run throws the write error and makes no
    further call — the marker attribute included. *)
Theorem write_stops_at_failure (g : hid_t) (name : string) (v : h5_array_view)
    (compress : bool) tr o :
  runs (write g name v compress) tr o ->
  (forall fs cparms ds,
     In (H5Dcreate2 g name (ty v) fs H5P_DEFAULT cparms H5P_DEFAULT, ds) tr ->
     is_valid ds = false ->
     o = Thrown ("Cannot create the dataset " +++ name +++ " in the group "
                 +++ group_name g)
     /\ last tr = Some (H5Dcreate2 g name (ty v) fs H5P_DEFAULT cparms H5P_DEFAULT, ds))
  /\ (forall c err, In (c, err) tr -> is_H5Dwrite c = true -> err < 0 ->
      o = Thrown ("Error writing the scalar dataset " +++ name +++ " in the group"
                  +++ group_name g)
      /\ last tr = Some (c, err)).
Proof.
  intros Hrun. unfold write in Hrun. run_inv; tests.
  all: rewrite ?app_nil_r.
  all: split;
    [ intros fs cparms ds Hin Hinvalid; in_cases; first [ congruence | by split ]
    | intros c err Hin Hc Herr; in_cases;
      first [ discriminate Hc | lia
            | split; [done|];
              rewrite ?app_comm_cons, ?last_app_cons, ?last_cons_cons; done
            | match goal with
              | Hin : In (c, _) ?trm, Hm : runs _ ?trm _ |- _ =>
                  apply (make_mem_dspace_calls _ _ _ Hm) in Hin;
                  destruct c; discriminate
              end ] ].
Qed.

(** X11 — Past the probe, [write_attribute] creates and fills: when the
    probe answers 0, the run builds the memory dataspace, creates the
    attribute under the given name with the type of the view and that
    dataspace, and calls [H5Awrite] on a valid attribute handle only; it
    returns exactly when the handle is valid and [H5Awrite] does not answer
    a negative value. *)
Theorem write_attribute_creates (obj : hid_t) (name : string) (v : h5_array_view)
    rest o :
  runs (write_attribute obj name v) ((H5LTfind_attribute obj name, 0) :: rest) o ->
  (exists msg, runs (make_mem_dspace v) rest (Thrown msg) /\ o = Thrown msg)
  \/ (exists trm ms attr,
        runs (make_mem_dspace v) trm (Returned ms)
        /\ let create :=
             H5Acreate2 obj name (ty v) ms H5P_DEFAULT H5P_DEFAULT in
           (is_valid attr = false /\ rest = (trm ++ [(create, attr)])%list
            /\ o = Thrown ("Cannot create the attribute " +++ name))
           \/ (is_valid attr = true /\ exists err,
                 rest = (trm ++ [(create, attr); (H5Awrite attr (ty v) (start v), err)])%list
                 /\ ((err < 0 /\ o = Thrown ("Cannot write the attribute " +++ name))
                     \/ (0 <= err /\ o = Returned tt)))).
Proof.
  intros Hrun.
  remember ((H5LTfind_attribute obj name, 0) :: rest) as tr eqn:Htr.
  unfold write_attribute in Hrun. run_inv; tests; simplify_eq.
  all: first
    [ left; eexists; split; [eassumption | done]
    | right; eexists _, _, _; split; [eassumption|];
      first [ left; by repeat split
            | right; split; [done|]; eexists; split; [done|];
              first [ left; split; [lia | done] | right; split; [lia | done] ] ] ].
Qed.

(** X12 — [read_attribute] transfers after its checks only.  Its runs are
    these and no others: the attribute handle is not valid and the run
    throws after [H5Aopen]; or the stored dataspace has a rank other than 0
    and the run throws after the rank is asked; or [H5Tequal] of the stored
    type and the view's type is negative or zero and the run throws after
    the type is asked; or [H5Aread] is called, on the view's type and
    buffer, and the run throws when it answers a negative value and returns
    otherwise.  So [H5Aread] is called exactly when the handle is valid,
    the stored rank is 0 and [H5Tequal] answers a positive value, and the
    run returns exactly when [H5Aread] was called and did not answer a
    negative value. *)
Theorem read_attribute_checks_first (obj : hid_t) (name : string) (v : h5_array_view) :
  (forall tr o, runs (read_attribute obj name v) tr o <->
     exists attr,
       let opened := (H5Aopen obj name H5P_DEFAULT, attr) in
       (is_valid attr = false /\ tr = [opened]
        /\ o = Thrown ("Cannot open the attribute " +++ name))
       \/ (is_valid attr = true /\ exists space rank,
             let asked :=
               [opened; (H5Aget_space attr, space);
                (H5Sget_simple_extent_ndims space, rank)] in
             (rank <> 0 /\ tr = asked
              /\ o = Thrown "Reading a scalar attribute and got rank !=0")
             \/ (rank = 0 /\ exists stored_ty,
                   let typed := (asked ++ [(H5Aget_type attr, stored_ty)])%list in
                   let eq := H5Tequal stored_ty (ty v) in
                   (eq < 0 /\ tr = typed
                    /\ o = Thrown "Type comparison failure in reading attribute")
                   \/ (eq = 0 /\ tr = typed
                       /\ o = Thrown "Type mismatch in reading attribute")
                   \/ (0 < eq /\ exists err,
                         tr = (typed ++ [(H5Aread attr (ty v) (start v), err)])%list
                         /\ ((err < 0
                              /\ o = Thrown ("Cannot read the attribute " +++ name))
                             \/ (0 <= err /\ o = Returned tt))))))
  /\ (forall tr o, runs (read_attribute obj name v) tr o ->
        (calls is_H5Aread tr = true
         <-> exists attr space stored_ty,
               In (H5Aopen obj name H5P_DEFAULT, attr) tr /\ is_valid attr = true
               /\ In (H5Aget_space attr, space) tr
               /\ In (H5Sget_simple_extent_ndims space, 0) tr
               /\ In (H5Aget_type attr, stored_ty) tr
               /\ 0 < H5Tequal stored_ty (ty v))
        /\ (o = Returned tt
            <-> exists attr err,
                  In (H5Aread attr (ty v) (start v), err) tr /\ 0 <= err)).
Proof.
  split.
  - intros tr o. split.
    + intros Hrun. unfold read_attribute in Hrun. run_inv; tests; subst.
      all: eexists; cbn zeta;
        first
          [ left; (split; [|split; [reflexivity | reflexivity]]); done
          | right; split; [done|]; eexists _, _;
            first
              [ left; (split; [|split; [reflexivity | reflexivity]]); done
              | right; split; [reflexivity|]; eexists;
                first
                  [ left; (split; [|split; [reflexivity | reflexivity]]); lia
                  | right; left; (split; [|split; [reflexivity | reflexivity]]); lia
                  | right; right;
                    (split;
                     [|eexists; split; [reflexivity|];
                       first [ left; split; [lia | done]
                             | right; split; [lia | done] ]]); lia ] ] ].
    + intros (attr & [(Hv & -> & ->)|(Hv & space & rank & Hcases)]).
      { unfold read_attribute. run_replay. }
      cbn zeta in Hcases.
      destruct Hcases as [(Hr & -> & ->)|(-> & stored_ty & Hcases)].
      { unfold read_attribute. apply Z.eqb_neq in Hr. run_replay. }
      cbn zeta in Hcases. cbn [app] in Hcases.
      unfold read_attribute.
      destruct Hcases as [(He & -> & ->)|[(He & -> & ->)|(He & err & -> & Hcases)]].
      * apply Z.ltb_lt in He. run_replay.
      * assert ((H5Tequal stored_ty (ty v) <? 0) = false)
          by (apply Z.ltb_ge; lia).
        apply Z.eqb_eq in He. run_replay.
      * assert ((H5Tequal stored_ty (ty v) <? 0) = false)
          by (apply Z.ltb_ge; lia).
        assert ((H5Tequal stored_ty (ty v) =? 0) = false)
          by (apply Z.eqb_neq; lia).
        destruct Hcases as [[Herr ->]|[Herr ->]].
        -- apply Z.ltb_lt in Herr. run_replay.
        -- apply Z.ltb_ge in Herr. run_replay.
  - intros tr o Hrun. unfold read_attribute in Hrun. run_inv; tests; subst.
    all: calls_eval'.
    all: split; split.
    all: try done.
    all: try solve [ intros _; eexists _, _, _; repeat split;
                     first [ solve [in_search] | done | lia ] ].
    all: try solve [ intros _; eexists _, _; split; [in_search | lia] ].
    all: try solve [ intros (attr & err & Hin & Herr); in_cases; lia ].
    all: intros (attr & space & stored_ty & H1 & Hv & H2 & H3 & H4 & Heq);
         in_cases; first [ congruence | lia ].
Qed.

End marshaller_more.

(** * Properties of the metadata probe *)

Lemma probe_runs_Ret_inv {A : Type} (a : A) tr o :
  probe.runs (probe.Ret a) tr o -> tr = [] /\ o = probe.Returned a.
Proof. by inversion 1. Qed.

Lemma probe_runs_LengthError_inv {A : Type} tr (o : probe.outcome A) :
  probe.runs probe.LengthError tr o -> tr = [] /\ o = probe.Thrown_length_error.
Proof. by inversion 1. Qed.

Lemma probe_runs_Undefined_inv {A : Type} u tr (o : probe.outcome A) :
  probe.runs (probe.Undefined u) tr o -> tr = [] /\ o = probe.Undefined_behaviour u.
Proof. by inversion 1. Qed.

Lemma probe_runs_Call_inv {A : Type} c (k : Z -> probe.prog A) tr o :
  probe.runs (probe.Call c k) tr o ->
  exists r tr', tr = probe.Called c r :: tr' /\ probe.runs (k r) tr' o.
Proof. inversion 1; subst. by eexists _, _. Qed.

Lemma probe_runs_H5Dget_type_inv {A : Type} dset (k : Z -> probe.prog A) tr o :
  probe.runs (probe.H5Dget_type dset k) tr o ->
  exists r tr', tr = probe.Got_type dset r :: tr' /\ probe.runs (k r) tr' o.
Proof. inversion 1; subst. by eexists _, _. Qed.

Lemma probe_runs_H5Sget_simple_extent_dims_inv {A : Type} space
    (k : v_t -> probe.prog A) tr o :
  probe.runs (probe.H5Sget_simple_extent_dims space k) tr o ->
  exists written tr', tr = probe.Got_dims space written :: tr'
                      /\ probe.runs (k written) tr' o.
Proof. inversion 1; subst. by eexists _, _. Qed.

Ltac probe_step :=
  match goal with
  | H : probe.runs (probe.Ret _) _ _ |- _ =>
      apply probe_runs_Ret_inv in H; destruct H as [? ?]; simplify_eq
  | H : probe.runs probe.LengthError _ _ |- _ =>
      apply probe_runs_LengthError_inv in H; destruct H as [? ?]; simplify_eq
  | H : probe.runs (probe.Undefined _) _ _ |- _ =>
      apply probe_runs_Undefined_inv in H; destruct H as [? ?]; simplify_eq
  | H : probe.runs (probe.Call _ _) _ _ |- _ =>
      apply probe_runs_Call_inv in H; destruct H as (? & ? & -> & H)
  | H : probe.runs (probe.H5Dget_type _ _) _ _ |- _ =>
      apply probe_runs_H5Dget_type_inv in H; destruct H as (? & ? & -> & H)
  | H : probe.runs (probe.H5Sget_simple_extent_dims _ _) _ _ |- _ =>
      apply probe_runs_H5Sget_simple_extent_dims_inv in H;
      destruct H as (? & ? & -> & H)
  | H : probe.runs (if ?b then _ else _) _ _ |- _ => destruct b eqn:?
  | H : probe.runs (match ?m with Done _ => _ | Undef _ => _ end) _ _ |- _ =>
      destruct m eqn:?
  end.

Lemma written_into_Done (dims_out written dims : v_t) :
  probe.written_into dims_out written = Done dims ->
  (length written <= length dims_out)%nat
  /\ length dims = length dims_out
  /\ (forall i, (i < length written)%nat -> dims !! i = written !! i)
  /\ (forall i, (length written <= i)%nat -> dims !! i = dims_out !! i).
Proof.
  unfold probe.written_into. case_decide as Hle; [|done]. intros [= <-].
  split; [done|]. split; [|split].
  - rewrite length_app, length_drop. lia.
  - intros i Hi. by rewrite lookup_app_l.
  - intros i Hi. rewrite lookup_app_r, lookup_drop by done. f_equal. lia.
Qed.

(** X13 — What the probe returns: a returning run of
    [get_h5_lengths_type] has opened the dataset, probed the attribute
    [__complex__] on it, and asked for its dataspace, rank, extents and
    type, in this order.  The lengths have as many entries as the rank the
    library answered, they are the extents the library wrote (all of them
    when it wrote one per dimension), the type is the stored type, and the
    complex flag is set exactly when the probe of the attribute did not
    answer 0 — an error answer included. *)
Theorem get_h5_lengths_type_returns (g : hid_t) (name : string) tr lt :
  probe.runs (probe.get_h5_lengths_type g name) tr (probe.Returned lt) ->
  exists ds found dspace rank written stored_ty,
    tr = [probe.Called (group_open_dataset g name) ds;
          probe.Called (H5LTfind_attribute ds "__complex__") found;
          probe.Called (H5Dget_space ds) dspace;
          probe.Called (H5Sget_simple_extent_ndims dspace) rank;
          probe.Got_dims dspace written;
          probe.Got_type ds stored_ty]
    /\ 0 <= rank /\ lt_rank lt = rank
    /\ (forall i, (i < length written)%nat -> lengths lt !! i = written !! i)
    /\ (Z.of_nat (length written) = rank -> lengths lt = written)
    /\ lt_ty lt = stored_ty
    /\ (has_complex_attribute lt = true <-> found <> 0).
Proof.
  intros Hrun. unfold probe.get_h5_lengths_type in Hrun.
  repeat probe_step. tests.
  match goal with
  | Hw : probe.written_into _ _ = Done _ |- _ =>
      apply written_into_Done in Hw as (Hle & Hlen & Hwritten & Hrest)
  end.
  rewrite length_replicate in Hle, Hlen.
  eexists _, _, _, _, _, _. split; [done|]. cbn [lengths lt_ty has_complex_attribute].
  split; [done|]. split; [unfold lt_rank; cbn [lengths]; lia|].
  split; [done|]. split; [|split; [done|]].
  - intros Hall. apply list_eq. intros i.
    match goal with
    | |- _ !! i = ?w !! i => destruct (decide (i < length w)%nat) as [Hi|Hi]
    end; [by apply Hwritten|].
    rewrite !lookup_ge_None_2; [done | lia | lia].
  - rewrite negb_true_iff. apply Z.eqb_neq.
Qed.

(** X14 — The edges of the probe: a run of [get_h5_lengths_type] makes no
    call that unlinks, creates or writes; when the library answers a
    negative rank, the run ends there with the length error of the vector
    constructor, before the extents are asked for; and when the library
    writes more extents than the rank it answered, the write runs past the
    end of the buffer. *)
Theorem get_h5_lengths_type_edges (g : hid_t) (name : string) tr
    (o : probe.outcome h5_lengths_type) :
  probe.runs (probe.get_h5_lengths_type g name) tr o ->
  probe.called changes_file tr = false
  /\ (forall dspace rank,
        In (probe.Called (H5Sget_simple_extent_ndims dspace) rank) tr -> rank < 0 ->
        o = probe.Thrown_length_error
        /\ last tr = Some (probe.Called (H5Sget_simple_extent_ndims dspace) rank))
  /\ (forall dspace rank written,
        In (probe.Called (H5Sget_simple_extent_ndims dspace) rank) tr ->
        In (probe.Got_dims dspace written) tr ->
        rank < Z.of_nat (length written) ->
        o = probe.Undefined_behaviour OutOfBounds).
Proof.
  intros Hrun. unfold probe.get_h5_lengths_type in Hrun.
  repeat probe_step; tests.
  all: split; [done|].
  all: repeat match goal with
       | Hw : probe.written_into _ _ = Done _ |- _ =>
           apply written_into_Done in Hw as (Hle & _);
           rewrite length_replicate in Hle
       | Hw : probe.written_into _ _ = Undef ?u |- _ =>
           unfold probe.written_into in Hw; case_decide; [done|];
           injection Hw as <-
       end.
  all: split;
    [ intros dspace rank Hin Hneg; cbn [In] in Hin;
      intuition (simplify_eq; first [done | lia])
    | intros dspace rank written Hin1 Hin2 Hlong; cbn [In] in Hin1, Hin2;
      intuition (simplify_eq; first [done | lia]) ].
Qed.

(** ** The further properties on the reference library *)

Section more_on_reference_library.

Local Existing Instance H5Model.collaborators.
Local Open Scope string_scope.
Local Open Scope Z_scope.

Lemma read_validated_witness :
  exists tr o,
    runs (read 7 "vec" samples.vector_view (samples.stored_vector H5Model.int32)) tr o
    /\ (o = Returned tt
        \/ o = Thrown "Cannot create the dataset"
        \/ o = Thrown "Cannot set hyperslab"
        \/ (o = Thrown ("Error reading the scalar dataset " ++ "vec"
                        ++ " in the group " ++ group_name 7)
            /\ exists ds ms fs err,
                 In (H5Dread ds (ty samples.vector_view) ms fs H5P_DEFAULT
                       (start samples.vector_view), err) tr
                 /\ err < 0)).
Proof.
  destruct (exec H5Model.lib
              (read 7 "vec" samples.vector_view (samples.stored_vector H5Model.int32))
              (exec H5Model.lib (write 7 "vec" samples.vector_view false)
                 H5Model.empty).2) as [[tr o] w] eqn:He.
  pose proof (exec_runs _ _ _ _ _ _ He) as Hrun.
  exists tr, o. split; [exact Hrun|].
  exact (proj2 (read_validated 7 "vec" samples.vector_view
                  (samples.stored_vector H5Model.int32) tr o
                  eq_refl eq_refl Hrun)).
Defined.

Lemma readers_change_nothing_witness :
  exists tr o,
    runs (read 7 "vec" samples.vector_view (samples.stored_vector H5Model.int32)) tr o
    /\ calls changes_file tr = false.
Proof.
  destruct (exec H5Model.lib
              (read 7 "vec" samples.vector_view (samples.stored_vector H5Model.int32))
              (exec H5Model.lib (write 7 "vec" samples.vector_view false)
                 H5Model.empty).2) as [[tr o] w] eqn:He.
  pose proof (exec_runs _ _ _ _ _ _ He) as Hrun.
  exists tr, o. split; [exact Hrun|].
  exact (proj1 (readers_change_nothing 7 "vec" samples.vector_view
                  (samples.stored_vector H5Model.int32)) tr o Hrun).
Defined.

Lemma write_creates_dataset_witness :
  exists tr o,
    runs (write 7 "vec" samples.vector_view true) tr o
    /\ exists r rest, tr = (group_unlink 7 "vec", r) :: rest.
Proof.
  destruct (exec H5Model.lib (write 7 "vec" samples.vector_view true) H5Model.empty)
    as [[tr o] w] eqn:He.
  pose proof (exec_runs _ _ _ _ _ _ He) as Hrun.
  exists tr, o. split; [exact Hrun|].
  exact (proj1 (write_creates_dataset 7 "vec" samples.vector_view true tr o Hrun)).
Defined.

Lemma write_chunks_witness :
  exists tr o,
    runs (write 7 "vec" samples.empty_view true) tr o
    /\ Forall (fun c => 1 <= c)
         ((fun c => Z.max c 1) <$> count (slab samples.empty_view)).
Proof.
  destruct (exec H5Model.lib (write 7 "vec" samples.empty_view true) H5Model.empty)
    as [[tr o] w] eqn:He.
  pose proof (exec_runs _ _ _ _ _ _ He) as Hrun.
  exists tr, o. split; [exact Hrun|].
  exact (proj1 (proj1 (write_chunks 7 "vec" samples.empty_view true tr o Hrun))).
Defined.

Lemma write_stops_at_failure_witness :
  let create := H5Dcreate2 7 "vec" (ty samples.vector_view) 1
                  H5P_DEFAULT H5P_DEFAULT H5P_DEFAULT in
  let tr := [(group_unlink 7 "vec", 0);
             (H5Screate_simple 1 [3] None, 1);
             (create, -1)] in
  let o := Thrown ("Cannot create the dataset " ++ "vec" ++ " in the group "
                   ++ group_name 7) in
  runs (write 7 "vec" samples.vector_view false) tr o
  /\ is_valid (-1) = false
  /\ last tr = Some (create, -1).
Proof.
  intros create tr o.
  assert (runs (write 7 "vec" samples.vector_view false) tr o) as Hrun
    by (repeat constructor).
  assert (is_valid (-1) = false) as Hinvalid by reflexivity.
  split; [exact Hrun|]. split; [exact Hinvalid|].
  refine (proj2 (proj1 (write_stops_at_failure 7 "vec" samples.vector_view false
                          tr o Hrun) 1 H5P_DEFAULT (-1) _ Hinvalid)).
  right. right. left. reflexivity.
Defined.

Lemma write_attribute_creates_witness :
  exists rest o,
    runs (write_attribute 7 "a" samples.scalar_view)
      ((H5LTfind_attribute 7 "a", 0) :: rest) o
    /\ exists trm ms,
         runs (make_mem_dspace samples.scalar_view) trm (Returned ms).
Proof.
  pose (rest := [(H5Screate H5S_SCALAR, 1);
                 (H5Acreate2 7 "a" H5Model.int32 1 H5P_DEFAULT H5P_DEFAULT, 2);
                 (H5Awrite 2 H5Model.int32 4096, 0)]).
  assert (runs (write_attribute 7 "a" samples.scalar_view)
            ((H5LTfind_attribute 7 "a", 0) :: rest) (Returned tt)) as Hrun
    by (repeat constructor).
  exists rest, (Returned tt). split; [exact Hrun|].
  destruct (write_attribute_creates 7 "a" samples.scalar_view rest (Returned tt) Hrun)
    as [(msg & _ & Habs)|(trm & ms & attr & Hmem & _)].
  - discriminate Habs.
  - exists trm, ms. exact Hmem.
Defined.

Lemma read_attribute_checks_first_witness :
  let tr := [(H5Aopen 7 "a" H5P_DEFAULT, 3);
             (H5Aget_space 3, 4);
             (H5Sget_simple_extent_ndims 4, 0);
             (H5Aget_type 3, H5Model.int32);
             (H5Aread 3 H5Model.int32 8192, 0)] in
  runs (read_attribute 7 "a" samples.vector_view) tr (Returned tt)
  /\ (exec H5Model.lib (read_attribute 7 "a" samples.vector_view)
        samples.with_attribute).1 = (tr, Returned tt)
  /\ calls is_H5Aread tr = true.
Proof.
  intros tr.
  assert (is_valid 3 = true) as Hvalid by reflexivity.
  assert (0 < H5Tequal H5Model.int32 (ty samples.vector_view)) as Heq
    by (vm_compute; reflexivity).
  assert (0 <= 0) as Hdone by lia.
  assert (runs (read_attribute 7 "a" samples.vector_view) tr (Returned tt)) as Hrun.
  { apply (proj1 (read_attribute_checks_first 7 "a" samples.vector_view)).
    exists 3. right. split; [exact Hvalid|]. exists 4, 0. right.
    split; [reflexivity|]. exists H5Model.int32. right. right.
    split; [exact Heq|]. exists 0. split; [reflexivity|].
    right. split; [exact Hdone | reflexivity]. }
  split; [exact Hrun|]. split; [reflexivity|].
  apply (proj1 (proj2 (read_attribute_checks_first 7 "a" samples.vector_view)
                  tr (Returned tt) Hrun)).
  exists 3, 4, H5Model.int32.
  split; [cbn; tauto|]. split; [exact Hvalid|].
  split; [cbn; tauto|]. split; [cbn; tauto|]. split; [cbn; tauto | exact Heq].
Defined.

End more_on_reference_library.

Lemma get_h5_lengths_type_returns_witness :
  let lt := {| lengths := [3; 4]; lt_ty := H5Model.float64;
               has_complex_attribute := true |} in
  let tr := [probe.Called (group_open_dataset 7 "m") 2;
             probe.Called (H5LTfind_attribute 2 "__complex__") (-1);
             probe.Called (H5Dget_space 2) 3;
             probe.Called (H5Sget_simple_extent_ndims 3) 2;
             probe.Got_dims 3 [3; 4];
             probe.Got_type 2 H5Model.float64] in
  probe.runs (probe.get_h5_lengths_type 7 "m") tr (probe.Returned lt)
  /\ lt_rank lt = 2.
Proof.
  intros lt tr.
  assert (probe.runs (probe.get_h5_lengths_type 7 "m") tr (probe.Returned lt))
    as Hrun by (repeat constructor).
  split; [exact Hrun|].
  destruct (get_h5_lengths_type_returns 7 "m" tr lt Hrun)
    as (ds & found & dspace & rank & written & stored_ty & Htr & _ & Hrank & _).
  unfold tr in Htr. injection Htr; intros.
  match goal with Hr : 2 = rank |- _ => rewrite Hr end. exact Hrank.
Defined.

Lemma get_h5_lengths_type_edges_witness :
  let tr := [probe.Called (group_open_dataset 7 "m") (-1);
             probe.Called (H5LTfind_attribute (-1) "__complex__") (-1);
             probe.Called (H5Dget_space (-1)) (-1);
             probe.Called (H5Sget_simple_extent_ndims (-1)) (-1)] in
  probe.runs (probe.get_h5_lengths_type 7 "m") tr probe.Thrown_length_error
  /\ probe.called changes_file tr = false.
Proof.
  intros tr.
  assert (probe.runs (probe.get_h5_lengths_type 7 "m") tr probe.Thrown_length_error)
    as Hrun by (repeat constructor).
  split; [exact Hrun|].
  exact (proj1 (get_h5_lengths_type_edges 7 "m" tr _ Hrun)).
Defined.
